(** * Environment loading middleware of fx-core (envLoader.ts)

    A shallow embedding of
    [packages/fx-core/src/core/middleware/envLoader.ts]: the middleware
    [EnvLoaderMW], the resolution [loadSolutionContext], the synthesis
    [newSolutionContext], the prompt driver [askTargetEnvironment] and the
    question builder [_getQuestionsForProvision].

    JavaScript objects whose keys matter (the inputs, the tools bag, the
    solution context built with spread syntax) are finite maps from
    property names to values.  Asynchronous calls are sequential here:
    every [await] is a plain call, and the calls made to collaborators
    are recorded in a trace. *)

From stdpp Require Import base option list strings pretty gmap fin_maps.

Local Open Scope string_scope.

(** ** Data model *)

(** [Result<T, FxError>] of the API package. *)
Inductive FxError : Type :=
| NoProjectOpenedError
| CollaboratorError (name message : string).

Inductive Result (T : Type) : Type :=
| ok (value : T)
| err (error : FxError).
Arguments ok {T} value.
Arguments err {T} error.

Definition isErr {T} (r : Result T) : bool :=
  match r with ok _ => false | err _ => true end.

(** [Inputs] is an open JSON object; the answers read and written by this
    file ([projectPath], [targetEnvName], [newTargetEnvName]) are strings,
    and a missing key reads as [undefined]. *)
Abbreviation Inputs := (gmap string string).

(** JavaScript truthiness of a [string | undefined] property:
    [undefined] and the empty string are falsy. *)
Definition truthy (v : option string) : bool :=
  match v with
  | Some s => negb (String.eqb s "")
  | None => false
  end.

(** [a ?? b] on a [string | undefined] left operand. *)
Definition nullish_or (v : option string) (d : string) : string :=
  match v with Some s => s | None => d end.

(** [a || b] on a [string | undefined] left operand. *)
Definition or_else (v : option string) (d : string) : string :=
  if truthy v then nullish_or v d else d.

Record SolutionSettings : Type := {
  ss_name : string;
  ss_version : string;
}.

Record ProjectSettings : Type := {
  appName : string;
  projectId : string;
  solutionSettings : SolutionSettings;
}.

(** [new LocalCrypto(projectId)]: the provider is determined by its key. *)
Record LocalCrypto : Type := { crypto_key : string }.

Abbreviation PluginConfig := (gmap string string).
Abbreviation Config := (gmap string PluginConfig).

(** What [environmentManager.loadEnvProfile] resolves to. *)
Record EnvInfo : Type := {
  envName : string;
  data : Config;
}.

(** Values stored in the objects that are merged with spread syntax:
    strings, the structured values this file builds, opaque service
    handles (loggers, UI, token providers, ...) and nested objects. *)
#[warnings="-register-all"]
Inductive Val : Type :=
| VStr (s : string)
| VProjectSettings (ps : ProjectSettings)
| VConfig (c : Config)
| VInputs (i : Inputs)
| VCrypto (c : LocalCrypto)
| VHandle (h : string)
| VObj (o : gmap string Val).

Abbreviation JsObject := (gmap string Val).

(** Object spread inside an object literal, [{ ...dst, ...src }]: every own
    property of [src] is written over what the literal holds so far. *)
Definition spread (src dst : JsObject) : JsObject := src ∪ dst.

(** Property access [o.k] followed by a spread of the value read: an object
    contributes its own properties, a missing property ([undefined])
    contributes nothing, and so do the non-object values of this model. *)
Definition own_properties (v : option Val) : JsObject :=
  match v with
  | Some (VObj o) => o
  | _ => ∅
  end.

(** *** Question tree *)

(** A question object of [../question]: its [name] is the key under which
    the answer is stored in the inputs; [staticOptions] is the option list
    of a single-select question. *)
Record Question : Type := {
  q_name : string;
  staticOptions : list string;
}.

(** The two question objects imported from [../question].  They are
    module-level objects shared by every call, so they live in the state
    and tree nodes point at them. *)
Record QuestionModule : Type := {
  QuestionSelectTargetEnvironment : Question;
  QuestionNewTargetEnvironmentName : Question;
}.

Inductive QuestionRef : Type :=
| SelectTargetEnvironmentRef
| NewTargetEnvironmentNameRef.

Definition deref (qm : QuestionModule) (r : QuestionRef) : Question :=
  match r with
  | SelectTargetEnvironmentRef => QuestionSelectTargetEnvironment qm
  | NewTargetEnvironmentNameRef => QuestionNewTargetEnvironmentName qm
  end.

(** [data: Question | Group] of a tree node. *)
Inductive NodeData : Type :=
| DataQuestion (r : QuestionRef)
| DataGroup.

(** The only validation schema this file writes: [{ equals: s }]. *)
Inductive ValidationSchema : Type :=
| Equals (s : string).

#[warnings="-register-all"]
Inductive QTreeNode : Type :=
| mkQTreeNode (node_data : NodeData)
              (node_condition : option ValidationSchema)
              (node_children : list QTreeNode).

Definition node_data (n : QTreeNode) : NodeData :=
  match n with mkQTreeNode d _ _ => d end.
Definition condition (n : QTreeNode) : option ValidationSchema :=
  match n with mkQTreeNode _ c _ => c end.
Definition children (n : QTreeNode) : list QTreeNode :=
  match n with mkQTreeNode _ _ cs => cs end.

(** [new QTreeNode(data)] *)
Definition new_QTreeNode (d : NodeData) : QTreeNode := mkQTreeNode d None [].

(** [node.condition = c] *)
Definition set_condition (c : ValidationSchema) (n : QTreeNode) : QTreeNode :=
  mkQTreeNode (node_data n) (Some c) (children n).

(** [node.addChild(child)]: pushes the child at the end. *)
Definition addChild (n child : QTreeNode) : QTreeNode :=
  mkQTreeNode (node_data n) (condition n) (children n ++ [child]).

(** Modelled from the spec: [QTreeNode.trim] is declared in the API package
    and is not part of this file.  Section 4.2 step 3 has the resolver
    traverse the two-level tree as it was built, so trimming keeps every
    question node with its (trimmed) children; the only nodes it can drop
    are group nodes left without children, for which it answers
    [undefined]. *)
Fixpoint trim (n : QTreeNode) : option QTreeNode :=
  match n with
  | mkQTreeNode d c cs =>
      let cs' := omap trim cs in
      match d, cs' with
      | DataGroup, [] => None
      | _, _ => Some (mkQTreeNode d c cs')
      end
  end.

(** Modelled from the spec: how the traversal engine of the API package
    evaluates a child's condition against the answer of its parent
    (section 4.1: "only show if parent answer equals literal X"); a child
    without a condition is always shown. *)
Definition condition_holds (c : option ValidationSchema) (answer : string) : bool :=
  match c with
  | None => true
  | Some (Equals s) => String.eqb answer s
  end.

Definition visible (child : QTreeNode) (parent_answer : string) : bool :=
  condition_holds (condition child) parent_answer.

(** ** Collaborators, state and trace *)

Inductive LogLevel : Type := LogDebug | LogInfo | LogError.

(** What a log template interpolates. *)
Inductive LogArg : Type :=
| NoArg
| ErrorMessage (e : FxError)
| JsonStringify (desensitized : Inputs).

(** Calls that leave this file, in the order they are made. *)
Inductive Event : Type :=
| ListEnvProfiles (projectPath : string)
| LoadEnvProfile (projectPath : option string) (targetEnvName : string)
                 (cryptoProvider : option LocalCrypto)
| Traverse (node : QTreeNode)
| Log (level : LogLevel) (template : string) (arg : LogArg)
| UuidV4
| Next.

(** [environmentManager] of [../environment]. *)
Record EnvironmentManager : Type := {
  defaultEnvName : string;
  listEnvProfiles : string -> Result (list string);
  loadEnvProfile :
    option string -> string -> option LocalCrypto -> Result EnvInfo;
}.

(** Everything imported by the file whose behaviour is not fixed by it.
    [traverse qs node inputs] is [traverse(node, inputs, core.tools.ui)]
    with the UI surface fixed: it answers the inputs object as the
    traversal left it and the traversal's result.  [uuid_v4 n] is what the
    [n]-th call of [uuid.v4()] returns. *)
Record World : Type := {
  environmentManager : EnvironmentManager;
  traverse : QuestionModule -> QTreeNode -> Inputs -> Inputs * Result unit;
  desensitize : QuestionModule -> QTreeNode -> Inputs -> Inputs;
  uuid_v4 : nat -> string;
}.

(** [CoreHookContext]: [tools] is [(ctx.self as FxCore).tools]; [result]
    holds the error of the [err(..)] that was last assigned to
    [ctx.result], if any. *)
Record CoreHookContext : Type := {
  tools : JsObject;
  projectSettings : option ProjectSettings;
  projectIdMissing : bool;
  solutionContext : option JsObject;
  result : option FxError;
}.

(** The mutable objects the functions share, and the trace.  [inputs] is
    the object that [ctx.arguments] ends with: every function of the file
    receives a reference to that one object. *)
Record State : Type := {
  questions : QuestionModule;
  inputs : Inputs;
  ctx : CoreHookContext;
  uuid_calls : nat;
  trace : list Event;
}.

Definition M (A : Type) : Type := State -> A * State.

Definition ret {A} (a : A) : M A := fun s => (a, s).

Definition bind {A B} (m : M A) (k : A -> M B) : M B :=
  fun s => let (a, s') := m s in k a s'.

Notation "x <<- m ;; k" := (bind m (fun x => k))
  (at level 100, m at next level, right associativity).
Notation "m ;;; k" := (bind m (fun _ => k))
  (at level 100, right associativity).

Definition get : M State := fun s => (s, s).

Definition emit (e : Event) : M unit := fun s =>
  (tt, {| questions := questions s; inputs := inputs s; ctx := ctx s;
          uuid_calls := uuid_calls s; trace := trace s ++ [e] |}).

Definition set_inputs (i : Inputs) : M unit := fun s =>
  (tt, {| questions := questions s; inputs := i; ctx := ctx s;
          uuid_calls := uuid_calls s; trace := trace s |}).

(** [selectEnv.staticOptions = options], where [selectEnv] is the shared
    object [QuestionSelectTargetEnvironment]. *)
Definition set_staticOptions (options : list string) : M unit := fun s =>
  let q := QuestionSelectTargetEnvironment (questions s) in
  (tt, {| questions :=
            {| QuestionSelectTargetEnvironment :=
                 {| q_name := q_name q; staticOptions := options |};
               QuestionNewTargetEnvironmentName :=
                 QuestionNewTargetEnvironmentName (questions s) |};
          inputs := inputs s; ctx := ctx s;
          uuid_calls := uuid_calls s; trace := trace s |}).

Definition set_ctx (c : CoreHookContext) : M unit := fun s =>
  (tt, {| questions := questions s; inputs := inputs s; ctx := c;
          uuid_calls := uuid_calls s; trace := trace s |}).

(** [ctx.result = err(e)] *)
Definition set_result (e : FxError) : M unit :=
  s <<- get ;;
  let c := ctx s in
  set_ctx {| tools := tools c; projectSettings := projectSettings c;
             projectIdMissing := projectIdMissing c;
             solutionContext := solutionContext c; result := Some e |}.

(** [ctx.solutionContext = v] *)
Definition set_solutionContext (v : JsObject) : M unit :=
  s <<- get ;;
  let c := ctx s in
  set_ctx {| tools := tools c; projectSettings := projectSettings c;
             projectIdMissing := projectIdMissing c;
             solutionContext := Some v; result := result c |}.

Definition log (level : LogLevel) (template : string) (arg : LogArg) : M unit :=
  emit (Log level template arg).

(** [uuid.v4()] *)
Definition next_uuid (w : World) : M string := fun s =>
  (uuid_v4 w (uuid_calls s),
   {| questions := questions s; inputs := inputs s; ctx := ctx s;
      uuid_calls := S (uuid_calls s); trace := trace s ++ [UuidV4] |}).

(** ** The functions of envLoader.ts *)

Section EnvLoader.
Context (w : World).

Definition call_listEnvProfiles (projectPath : string) : M (Result (list string)) :=
  emit (ListEnvProfiles projectPath) ;;;
  ret (listEnvProfiles (environmentManager w) projectPath).

Definition call_loadEnvProfile (projectPath : option string)
    (targetEnvName : string) (cryptoProvider : option LocalCrypto)
  : M (Result EnvInfo) :=
  emit (LoadEnvProfile projectPath targetEnvName cryptoProvider) ;;;
  ret (loadEnvProfile (environmentManager w) projectPath targetEnvName
         cryptoProvider).

(** [traverse(node, inputs, core.tools.ui)]: the inputs object is
    mutated in place, whatever the outcome. *)
Definition call_traverse (node : QTreeNode) : M (Result unit) :=
  emit (Traverse node) ;;;
  s <<- get ;;
  let (inputs', res) := traverse w (questions s) node (inputs s) in
  set_inputs inputs' ;;;
  ret res.

Definition _getQuestionsForProvision : M (Result (option QTreeNode)) :=
  s <<- get ;;
  match inputs s !! "projectPath" with
  | None => ret (err NoProjectOpenedError)
  | Some projectPath =>
      if negb (truthy (Some projectPath)) then ret (err NoProjectOpenedError)
      else
        envProfilesResult <<- call_listEnvProfiles projectPath ;;
        match envProfilesResult with
        | err e => ret (err e)
        | ok envProfiles =>
            set_staticOptions (["+ new env"] ++ envProfiles) ;;;
            let node := new_QTreeNode (DataQuestion SelectTargetEnvironmentRef) in
            let childNode :=
              new_QTreeNode (DataQuestion NewTargetEnvironmentNameRef) in
            let childNode := set_condition (Equals "+ new env") childNode in
            let node := addChild node childNode in
            ret (ok (trim node))
        end
  end.

Definition askTargetEnvironment : M unit :=
  getQuestionRes <<- _getQuestionsForProvision ;;
  match getQuestionRes with
  | err e =>
      log LogError "[core] failed to get questions for target environment: "
        (ErrorMessage e) ;;;
      set_result e
  | ok _ =>
      log LogDebug "[core] success to get questions for target environment."
        NoArg ;;;
      (* the source tests [getQuestionRes.isErr()] a second time *)
      match getQuestionRes with
      | err e =>
          log LogError "[core] failed to get questions for target environment: "
            (ErrorMessage e) ;;;
          set_result e
      | ok node =>
          log LogDebug "[core] success to get questions for target environment"
            NoArg ;;;
          match node with
          | None => ret tt
          | Some node =>
              res <<- call_traverse node ;;
              match res with
              | err e =>
                  log LogDebug
                    "[core] failed to run question model for target environment"
                    NoArg ;;;
                  set_result e
              | ok _ =>
                  s <<- get ;;
                  let desensitized := desensitize w (questions s) node (inputs s) in
                  log LogInfo
                    "[core] success to run question model for target environment, answers:"
                    (JsonStringify desensitized)
              end
          end
      end
  end.

(** The object literal of [loadSolutionContext], built in source order:
    later properties and spreads overwrite earlier ones. *)
Definition loaded_context (projectSettings : ProjectSettings) (envInfo : EnvInfo)
    (tools : JsObject) (inputs : Inputs) (cryptoProvider : LocalCrypto)
  : JsObject :=
  let o : JsObject := ∅ in
  let o := <["projectSettings" := VProjectSettings projectSettings]> o in
  let o := <["targetEnvName" := VStr (envName envInfo)]> o in
  let o := <["config" := VConfig (data envInfo)]> o in
  let o := <["root" := VStr (or_else (inputs !! "projectPath") "")]> o in
  let o := spread tools o in
  let o := spread (own_properties (tools !! "tokenProvider")) o in
  let o := <["answers" := VInputs inputs]> o in
  let o := <["cryptoProvider" := VCrypto cryptoProvider]> o in
  o.

Definition loadSolutionContext (tools : JsObject) : M (Result JsObject) :=
  s <<- get ;;
  match truthy (inputs s !! "projectPath"), projectSettings (ctx s) with
  | false, _ | _, None => ret (err NoProjectOpenedError)
  | true, Some projectSettings =>
      askTargetEnvironment ;;;
      s <<- get ;;
      let targetEnvName :=
        nullish_or (inputs s !! "targetEnvName")
          (defaultEnvName (environmentManager w)) in
      let targetEnvName : Result string :=
        if String.eqb targetEnvName "+ new env" then
          match inputs s !! "newTargetEnvName" with
          | Some newTargetEnvName =>
              if truthy (Some newTargetEnvName) then ok newTargetEnvName
              else err NoProjectOpenedError
          | None => err NoProjectOpenedError
          end
        else ok targetEnvName in
      match targetEnvName with
      | err e => ret (err e)
      | ok targetEnvName =>
          let cryptoProvider := {| crypto_key := projectId projectSettings |} in
          envDataResult <<-
            call_loadEnvProfile (inputs s !! "projectPath") targetEnvName
              (if projectIdMissing (ctx s) then None else Some cryptoProvider) ;;
          match envDataResult with
          | err e => ret (err e)
          | ok envInfo =>
              ret (ok (loaded_context projectSettings envInfo tools (inputs s)
                         cryptoProvider))
          end
      end
  end.

Definition EnvLoaderMW : M unit :=
  s <<- get ;;
  match projectSettings (ctx s) with
  | Some _ =>
      result <<- loadSolutionContext (tools (ctx s)) ;;
      match result with
      | err e => set_result e
      | ok value => set_solutionContext value ;;; emit Next
      end
  | None => emit Next
  end.

Definition newSolutionContext (tools : JsObject) (inputs : Inputs)
  : M JsObject :=
  id <<- next_uuid w ;;
  let projectSettings :=
    {| appName := ""; projectId := id;
       solutionSettings :=
         {| ss_name := "fx-solution-azure"; ss_version := "1.0.0" |} |} in
  let o : JsObject := ∅ in
  let o := <["projectSettings" := VProjectSettings projectSettings]> o in
  let o := <["config" := VConfig ∅]> o in
  let o := <["root" := VStr (or_else (inputs !! "projectPath") "")]> o in
  let o := spread tools o in
  let o := spread (own_properties (tools !! "tokenProvider")) o in
  let o := <["answers" := VInputs inputs]> o in
  let o := <["cryptoProvider" :=
               VCrypto {| crypto_key := projectId projectSettings |}]> o in
  ret o.

End EnvLoader.

(** ** A traversal engine after the specification *)

(** The UI surface: [present question currentAnswers]. *)
Definition UserInteraction : Type := Question -> Inputs -> Result string.

(** Modelled from the spec: [traverse] is imported from the API package and
    is not part of this file.  Section 4.1: depth-first and pre-order;
    present the node's prompt, obtain the answer, store it in the answers
    under the node's identifier, then recurse into the children whose
    condition holds of that answer; the first failure aborts and is
    propagated, and what was collected stays in the answers.  A group node
    has no prompt and hence no answer: only its children without a
    condition are visited.  Besides the answers and the result, the list
    of the questions that were presented is returned. *)
Fixpoint traverse_model (ui : UserInteraction) (qs : QuestionModule)
    (node : QTreeNode) (answers : Inputs)
  : Inputs * list QuestionRef * Result unit :=
  match node with
  | mkQTreeNode d _ cs =>
      let visit_children (shown : QTreeNode -> bool) :=
        fix go (cs : list QTreeNode) (answers : Inputs)
               (presented : list QuestionRef) :=
          match cs with
          | [] => (answers, presented, ok tt)
          | child :: rest =>
              if shown child then
                match traverse_model ui qs child answers with
                | (answers', ps, err e) => (answers', (presented ++ ps)%list, err e)
                | (answers', ps, ok _) => go rest answers' (presented ++ ps)%list
                end
              else go rest answers presented
          end in
      match d with
      | DataQuestion r =>
          let q := deref qs r in
          match ui q answers with
          | err e => (answers, [r], err e)
          | ok answer =>
              visit_children (fun child => visible child answer) cs
                (<[q_name q := answer]> answers) [r]
          end
      | DataGroup =>
          visit_children
            (fun child => match condition child with None => true | Some _ => false end)
            cs answers []
      end
  end.

(** [traverse] of a world whose UI surface is [ui]. *)
Definition traverse_with (ui : UserInteraction)
  : QuestionModule -> QTreeNode -> Inputs -> Inputs * Result unit :=
  fun qs node answers =>
    let '(answers', _, res) := traverse_model ui qs node answers in
    (answers', res).

(** ** Reading traces and assembled contexts *)

Definition is_load (e : Event) : bool :=
  match e with LoadEnvProfile _ _ _ => true | _ => false end.

Definition is_registry_call (e : Event) : bool :=
  match e with
  | LoadEnvProfile _ _ _ | ListEnvProfiles _ => true
  | _ => false
  end.

(** The registry loads of a trace, in order. *)
Definition load_calls (t : list Event) : list Event := List.filter is_load t.

(** All registry calls of a trace, in order. *)
Definition registry_calls (t : list Event) : list Event :=
  List.filter is_registry_call t.

(** What the two spreads [...tools, ...tools.tokenProvider] write under a
    key, if anything: the token provider's property wins over the tools'. *)
Definition tool_field (tools : JsObject) (k : string) : option Val :=
  spread (own_properties (tools !! "tokenProvider")) tools !! k.

(** The environment-derived value of each of the four fields that the
    object literal of [loadSolutionContext] writes before the spreads. *)
Definition env_field (ps : ProjectSettings) (envInfo : EnvInfo)
    (inputs : Inputs) (k : string) : option Val :=
  if String.eqb k "projectSettings" then Some (VProjectSettings ps)
  else if String.eqb k "targetEnvName" then Some (VStr (envName envInfo))
  else if String.eqb k "config" then Some (VConfig (data envInfo))
  else if String.eqb k "root" then Some (VStr (or_else (inputs !! "projectPath") ""))
  else None.

(** The final target name that [loadSolutionContext] computes from the
    inputs as the traversal left them. *)
Definition candidate_name (w : World) (i : Inputs) : string :=
  match i !! "targetEnvName" with
  | Some selected => selected
  | None => defaultEnvName (environmentManager w)
  end.

(** The name handed to the registry, if the resolution gets that far:
    the new-environment answer when the sentinel was selected (none when
    that answer is missing or empty), the selected or default name
    otherwise. *)
Definition final_name (w : World) (i : Inputs) : option string :=
  if String.eqb (candidate_name w i) "+ new env" then
    if truthy (i !! "newTargetEnvName") then i !! "newTargetEnvName" else None
  else Some (candidate_name w i).

(** ** Sample collaborators and states *)

Definition UserCancel : FxError :=
  CollaboratorError "UserCancel" "the operator cancelled the prompt".

(** A registry that knows [dev] and [prod] and loads whatever it is asked
    for under the name it was asked for. *)
Definition ex_manager : EnvironmentManager := {|
  defaultEnvName := "default";
  listEnvProfiles := fun _ => ok ["dev"; "prod"];
  loadEnvProfile := fun _ targetEnvName _ =>
    ok {| envName := targetEnvName; data := ∅ |};
|}.

(** A registry that stores every profile under a lower-case name: asked
    for [Dev], it answers the profile named [dev]. *)
Definition ex_manager_normalising : EnvironmentManager := {|
  defaultEnvName := "default";
  listEnvProfiles := fun _ => ok ["dev"];
  loadEnvProfile := fun _ _ _ =>
    ok {| envName := "dev"; data := {["fx-resource" := ∅]} |};
|}.

(** An operator who cancels every prompt. *)
Definition ui_cancel : UserInteraction := fun _ _ => err UserCancel.

(** An operator who answers from a script, by question name, and cancels
    the prompts the script does not cover. *)
Definition ui_script (script : gmap string string) : UserInteraction :=
  fun q _ =>
    match script !! q_name q with
    | Some answer => ok answer
    | None => err UserCancel
    end.

(** An identifier source that never repeats itself: the call count in
    decimal. *)
Definition ex_uuid (n : nat) : string := pretty n.

Definition ex_world (em : EnvironmentManager) (ui : UserInteraction) : World := {|
  environmentManager := em;
  traverse := traverse_with ui;
  desensitize := fun _ _ answers => answers;
  uuid_v4 := ex_uuid;
|}.

(** The question objects, named after the inputs that
    [loadSolutionContext] reads back. *)
Definition ex_questions : QuestionModule := {|
  QuestionSelectTargetEnvironment :=
    {| q_name := "targetEnvName"; staticOptions := [] |};
  QuestionNewTargetEnvironmentName :=
    {| q_name := "newTargetEnvName"; staticOptions := [] |};
|}.

Definition ex_settings : ProjectSettings := {|
  appName := "app";
  projectId := "0f9ad9e4-6b3c-4a55-9d0c-3c1f2a3b4c5d";
  solutionSettings := {| ss_name := "fx-solution-azure"; ss_version := "1.0.0" |};
|}.

Definition ex_tools : JsObject :=
  {[ "logProvider" := VHandle "log"; "ui" := VHandle "ui";
     "tokenProvider" := VObj {[ "azureAccountProvider" := VHandle "azure" ]} ]}.

(** Tools whose fields collide with the environment fields of the
    context. *)
Definition ex_tools_colliding : JsObject :=
  {[ "root" := VHandle "tool-root"; "config" := VHandle "tool-config";
     "tokenProvider" :=
       VObj {[ "targetEnvName" := VHandle "token-env";
               "projectSettings" := VHandle "token-settings" ]} ]}.

Definition ex_state (tools : JsObject) (settings : option ProjectSettings)
    (idMissing : bool) (inputs : Inputs) : State := {|
  questions := ex_questions;
  inputs := inputs;
  ctx := {| tools := tools; projectSettings := settings;
            projectIdMissing := idMissing; solutionContext := None;
            result := None |};
  uuid_calls := 0;
  trace := [];
|}.

Definition ex_inputs : Inputs := {[ "projectPath" := "/work/app" ]}.

(** Worlds and states of the examples below. *)
Definition ex_world_cancel : World := ex_world ex_manager ui_cancel.

Definition ex_state_empty_path : State :=
  ex_state ex_tools (Some ex_settings) false {[ "projectPath" := "" ]}.

(** The operator picks the sentinel at the root prompt and leaves the new
    name empty. *)
Definition ex_world_new_unnamed : World :=
  ex_world ex_manager
    (ui_script {[ "targetEnvName" := "+ new env"; "newTargetEnvName" := "" ]}).

(** The operator picks the existing environment [prod]. *)
Definition ex_world_pick_prod : World :=
  ex_world ex_manager (ui_script {[ "targetEnvName" := "prod" ]}).

(** The operator types [Dev] for a registry that stores it as [dev]. *)
Definition ex_world_normalising : World :=
  ex_world ex_manager_normalising
    (ui_script {[ "targetEnvName" := "+ new env"; "newTargetEnvName" := "Dev" ]}).

Definition ex_state_open : State :=
  ex_state ex_tools (Some ex_settings) false ex_inputs.

Definition ex_state_legacy : State :=
  ex_state ex_tools (Some ex_settings) true ex_inputs.

Definition ex_state_colliding : State :=
  ex_state ex_tools_colliding (Some ex_settings) false ex_inputs.

(** The context of the project of the examples once [prod] is picked. *)
Definition ex_context_prod : JsObject :=
  loaded_context ex_settings {| envName := "prod"; data := ∅ |} ex_tools
    (<["targetEnvName" := "prod"]> ex_inputs)
    {| crypto_key := projectId ex_settings |}.

(** The context assembled when the operator names the new environment
    [Dev] and the registry answers the profile [dev]. *)
Definition ex_context_normalised : JsObject :=
  loaded_context ex_settings
    {| envName := "dev"; data := {["fx-resource" := ∅]} |} ex_tools
    (<["newTargetEnvName" := "Dev"]> (<["targetEnvName" := "+ new env"]> ex_inputs))
    {| crypto_key := projectId ex_settings |}.

(** The context assembled from the colliding tools once [prod] is
    picked. *)
Definition ex_context_colliding : JsObject :=
  loaded_context ex_settings {| envName := "prod"; data := ∅ |}
    ex_tools_colliding (<["targetEnvName" := "prod"]> ex_inputs)
    {| crypto_key := projectId ex_settings |}.

(** The context assembled for the default environment. *)
Definition ex_context_default : JsObject :=
  loaded_context ex_settings {| envName := "default"; data := ∅ |} ex_tools
    ex_inputs {| crypto_key := projectId ex_settings |}.

(** The events of the asking: the listing, the traversal and the log
    lines. *)
Definition is_asking_event (e : Event) : bool :=
  match e with
  | ListEnvProfiles _ | Traverse _ | Log _ _ _ => true
  | _ => false
  end.

(** The value of each field that the object literal of
    [newSolutionContext] writes before the spreads, for the identity
    [id] it minted. *)
Definition fresh_field (id : string) (inputs : Inputs) (k : string)
  : option Val :=
  if String.eqb k "projectSettings" then
    Some (VProjectSettings
            {| appName := ""; projectId := id;
               solutionSettings :=
                 {| ss_name := "fx-solution-azure"; ss_version := "1.0.0" |} |})
  else if String.eqb k "config" then Some (VConfig ∅)
  else if String.eqb k "root" then Some (VStr (or_else (inputs !! "projectPath") ""))
  else None.

Definition ListFailed : FxError :=
  CollaboratorError "ListFailed" "the environment folder cannot be read".

Definition ProfileNotFound : FxError :=
  CollaboratorError "ProfileNotFound" "no such environment profile".

(** A registry whose listing fails and whose loads succeed. *)
Definition ex_manager_unlisted : EnvironmentManager := {|
  defaultEnvName := "default";
  listEnvProfiles := fun _ => err ListFailed;
  loadEnvProfile := fun _ targetEnvName _ =>
    ok {| envName := targetEnvName; data := ∅ |};
|}.

(** A registry that lists [dev] and [prod] and fails every load. *)
Definition ex_manager_missing : EnvironmentManager := {|
  defaultEnvName := "default";
  listEnvProfiles := fun _ => ok ["dev"; "prod"];
  loadEnvProfile := fun _ _ _ => err ProfileNotFound;
|}.

Definition ex_world_unlisted : World := ex_world ex_manager_unlisted ui_cancel.

Definition ex_world_missing : World :=
  ex_world ex_manager_missing (ui_script {[ "targetEnvName" := "prod" ]}).

(** The operator picks the sentinel and names the new environment
    [staging]. *)
Definition ex_world_new_staging : World :=
  ex_world ex_manager
    (ui_script {[ "targetEnvName" := "+ new env";
                  "newTargetEnvName" := "staging" ]}).

(** No project is open. *)
Definition ex_state_closed : State := ex_state ex_tools None false ex_inputs.

(** The tree that [_getQuestionsForProvision] builds. *)
Definition ex_tree : QTreeNode :=
  mkQTreeNode (DataQuestion SelectTargetEnvironmentRef) None
    [mkQTreeNode (DataQuestion NewTargetEnvironmentNameRef)
       (Some (Equals "+ new env")) []].

(** The operator picks the sentinel and then types the sentinel itself as
    the new name. *)
Definition ex_world_new_sentinel : World :=
  ex_world ex_manager
    (ui_script {[ "targetEnvName" := "+ new env";
                  "newTargetEnvName" := "+ new env" ]}).

(** Tools that carry project settings and a configuration of their own. *)
Definition ex_tools_with_settings : JsObject :=
  {[ "projectSettings" := VProjectSettings ex_settings;
     "config" := VConfig {["fx-resource" := ∅]} ]}.

(** ** Frame lemmas *)

(** Unfolds the state monad and the primitive operations. *)
Ltac run :=
  cbv beta iota zeta delta
    [bind ret get emit log set_inputs set_ctx set_result set_solutionContext
     set_staticOptions call_listEnvProfiles call_loadEnvProfile call_traverse
     next_uuid]; cbn [fst snd].

Lemma load_calls_app t1 t2 : load_calls (t1 ++ t2) = (load_calls t1 ++ load_calls t2)%list.
Proof. apply List.filter_app. Qed.

Lemma registry_calls_app t1 t2 :
  registry_calls (t1 ++ t2) = (registry_calls t1 ++ registry_calls t2)%list.
Proof. apply List.filter_app. Qed.

(** The question builder touches the shared select question and the trace
    only, and its only registry call is the listing. *)
Lemma getQuestions_frame w s :
  let s' := (_getQuestionsForProvision w s).2 in
  inputs s' = inputs s ∧ ctx s' = ctx s ∧ uuid_calls s' = uuid_calls s ∧
  QuestionNewTargetEnvironmentName (questions s')
    = QuestionNewTargetEnvironmentName (questions s) ∧
  ∃ evs, trace s' = (trace s ++ evs)%list ∧ load_calls evs = [].
Proof.
  unfold _getQuestionsForProvision. run.
  destruct (inputs s !! "projectPath") as [p|]; cbn.
  2: { repeat split; exists []; by rewrite app_nil_r. }
  destruct (String.eqb p ""); cbn.
  { repeat split; exists []; by rewrite app_nil_r. }
  destruct (listEnvProfiles (environmentManager w) p); cbn;
    repeat split; by exists [ListEnvProfiles p].
Qed.

(** Asking for the target environment may rewrite the inputs and
    [ctx.result]; it leaves the rest of the context alone and never loads
    a profile. *)
Lemma askTargetEnvironment_frame w s :
  let s' := (askTargetEnvironment w s).2 in
  tools (ctx s') = tools (ctx s) ∧
  projectSettings (ctx s') = projectSettings (ctx s) ∧
  projectIdMissing (ctx s') = projectIdMissing (ctx s) ∧
  solutionContext (ctx s') = solutionContext (ctx s) ∧
  uuid_calls s' = uuid_calls s ∧
  ∃ evs, trace s' = (trace s ++ evs)%list ∧ load_calls evs = [].
Proof.
  unfold askTargetEnvironment.
  pose proof (getQuestions_frame w s) as Hq. cbv zeta in Hq.
  cbv beta iota zeta delta [bind]. 
  destruct (_getQuestionsForProvision w s) as [r s1]. cbn [snd] in Hq.
  destruct Hq as (Hi & Hc & Hu & _ & evs & Ht & Hl).
  destruct r as [[node|]|e]; run; cbn; rewrite ?Hc, ?Hu, ?Ht.
  - destruct (traverse w (questions s1) node (inputs s1)) as [i' [[]|e]]; cbn;
      repeat split; rewrite <- ?app_assoc; eexists; (split; [reflexivity|]);
      rewrite !load_calls_app, Hl; reflexivity.
  - repeat split. rewrite <- ?app_assoc; eexists; (split; [reflexivity|]).
    rewrite !load_calls_app, Hl; reflexivity.
  - repeat split. rewrite <- ?app_assoc; eexists; (split; [reflexivity|]).
    rewrite !load_calls_app, Hl; reflexivity.
Qed.

(** ** The shape of a resolution *)

(** Past the no-project guard, [loadSolutionContext] asks, then either
    stops on the missing new name or performs one registry load with the
    final name and assembles the context from what the registry answers.
    The outcome of the asking is not consulted. *)
Lemma loadSolutionContext_guarded w tools s ps :
  truthy (inputs s !! "projectPath") = true →
  projectSettings (ctx s) = Some ps →
  let s1 := (askTargetEnvironment w s).2 in
  loadSolutionContext w tools s =
    match final_name w (inputs s1) with
    | None => (err NoProjectOpenedError, s1)
    | Some n =>
        let cryptoProvider := {| crypto_key := projectId ps |} in
        let arg := if projectIdMissing (ctx s) then None else Some cryptoProvider in
        (match loadEnvProfile (environmentManager w) (inputs s1 !! "projectPath") n arg with
         | err e => err e
         | ok envInfo =>
             ok (loaded_context ps envInfo tools (inputs s1) cryptoProvider)
         end,
         (emit (LoadEnvProfile (inputs s1 !! "projectPath") n arg) s1).2)
    end.
Proof.
  intros Hp Hs.
  pose proof (askTargetEnvironment_frame w s) as Hf. cbv zeta in Hf.
  unfold loadSolutionContext. cbv beta iota zeta delta [bind get].
  rewrite Hp, Hs.
  destruct (askTargetEnvironment w s) as [[] s1]. cbn [snd] in *.
  destruct Hf as (_ & _ & Hm & _).
  unfold final_name, candidate_name, nullish_or. rewrite Hm.
  destruct (inputs s1 !! "targetEnvName") as [sel|];
    (destruct (String.eqb _ "+ new env");
     [ destruct (inputs s1 !! "newTargetEnvName") as [nn|]; cbn [truthy];
       [ destruct (negb (String.eqb nn "")) |]
     | ]); run; try reflexivity;
    destruct (loadEnvProfile _ _ _ _); reflexivity.
Qed.

Lemma loaded_context_lookup ps envInfo tools (i : Inputs) cp (k : string) :
  loaded_context ps envInfo tools i cp !! k =
    if String.eqb k "cryptoProvider" then Some (VCrypto cp)
    else if String.eqb k "answers" then Some (VInputs i)
    else match tool_field tools k with
         | Some v => Some v
         | None => env_field ps envInfo i k
         end.
Proof.
  unfold loaded_context, tool_field, env_field, spread.
  destruct (String.eqb_spec k "cryptoProvider") as [->|Hc].
  { by rewrite lookup_insert_eq. }
  rewrite lookup_insert_ne by done.
  destruct (String.eqb_spec k "answers") as [->|Ha].
  { by rewrite lookup_insert_eq. }
  rewrite lookup_insert_ne by done.
  rewrite !lookup_union.
  destruct (own_properties (tools !! "tokenProvider") !! k) as [v|];
    destruct (tools !! k) as [v'|]; cbn; try reflexivity.
  all: destruct (String.eqb_spec k "projectSettings") as [->|H1];
    [ by repeat (rewrite lookup_insert_ne by done); rewrite lookup_insert_eq |].
  all: destruct (String.eqb_spec k "targetEnvName") as [->|H2];
    [ by repeat (rewrite lookup_insert_ne by done); rewrite lookup_insert_eq |].
  all: destruct (String.eqb_spec k "config") as [->|H3];
    [ by repeat (rewrite lookup_insert_ne by done); rewrite lookup_insert_eq |].
  all: destruct (String.eqb_spec k "root") as [->|H4];
    [ by rewrite lookup_insert_eq |].
  all: by rewrite !lookup_insert_ne, lookup_empty by done.
Qed.

(** ** The claims *)

(** Before the guard is passed nothing happens at all. *)
Lemma loadSolutionContext_rejected w tools s :
  truthy (inputs s !! "projectPath") = false ∨ projectSettings (ctx s) = None →
  loadSolutionContext w tools s = (err NoProjectOpenedError, s).
Proof.
  intros H. unfold loadSolutionContext. cbv beta iota zeta delta [bind get ret].
  destruct H as [-> | ->]; [reflexivity|].
  by destruct (truthy _).
Qed.

(** C5 (no-project guard): when [inputs.projectPath] is absent or empty, or
    the project settings are absent, [loadSolutionContext] answers
    [err(NoProjectOpenedError())] and leaves the whole state, and with it
    the trace, as it found it: neither [listEnvProfiles] nor
    [loadEnvProfile] is called.  [_getQuestionsForProvision] has the same
    guard on the project path, before its listing. *)
Theorem no_project_guard w tools s :
  truthy (inputs s !! "projectPath") = false ∨ projectSettings (ctx s) = None →
  loadSolutionContext w tools s = (err NoProjectOpenedError, s) ∧
  registry_calls (trace (loadSolutionContext w tools s).2)
    = registry_calls (trace s) ∧
  (truthy (inputs s !! "projectPath") = false →
   _getQuestionsForProvision w s = (err NoProjectOpenedError, s)).
Proof.
  intros H. pose proof (loadSolutionContext_rejected w tools s H) as E.
  split; [exact E|]. split; [by rewrite E|].
  intros Hp. unfold _getQuestionsForProvision.
  cbv beta iota zeta delta [bind get ret].
  destruct (inputs s !! "projectPath") as [p|]; [|reflexivity].
  by rewrite Hp.
Qed.

Lemma no_project_guard_witness :
  loadSolutionContext ex_world_cancel ex_tools ex_state_empty_path
    = (err NoProjectOpenedError, ex_state_empty_path) ∧
  registry_calls
    (trace (loadSolutionContext ex_world_cancel ex_tools ex_state_empty_path).2)
    = registry_calls (trace ex_state_empty_path) ∧
  (truthy (inputs ex_state_empty_path !! "projectPath") = false →
   _getQuestionsForProvision ex_world_cancel ex_state_empty_path
     = (err NoProjectOpenedError, ex_state_empty_path)).
Proof.
  apply (no_project_guard ex_world_cancel ex_tools ex_state_empty_path).
  left. reflexivity.
Defined.

(** C2 (new environment without a name): when, after the asking, the
    selected name is the sentinel and [inputs.newTargetEnvName] is absent
    or empty, [loadSolutionContext] fails without loading any profile and
    without falling back to another name.  The error it answers is
    [NoProjectOpenedError()], the error of the no-project guard, although
    a project is open here. *)
Theorem new_env_requires_name w tools s ps :
  truthy (inputs s !! "projectPath") = true →
  projectSettings (ctx s) = Some ps →
  candidate_name w (inputs (askTargetEnvironment w s).2) = "+ new env" →
  truthy (inputs (askTargetEnvironment w s).2 !! "newTargetEnvName") = false →
  loadSolutionContext w tools s
    = (err NoProjectOpenedError, (askTargetEnvironment w s).2) ∧
  load_calls (trace (loadSolutionContext w tools s).2) = load_calls (trace s).
Proof.
  intros Hp Hs Hc Hn.
  pose proof (loadSolutionContext_guarded w tools s ps Hp Hs) as E.
  cbv zeta in E. unfold final_name in E. rewrite Hc, String.eqb_refl, Hn in E.
  split; [exact E|]. rewrite E. cbn [snd].
  destruct (askTargetEnvironment_frame w s) as (_ & _ & _ & _ & _ & evs & -> & Hl).
  by rewrite load_calls_app, Hl, app_nil_r.
Qed.

Lemma new_env_requires_name_witness :
  loadSolutionContext ex_world_new_unnamed ex_tools ex_state_open
    = (err NoProjectOpenedError,
       (askTargetEnvironment ex_world_new_unnamed ex_state_open).2) ∧
  load_calls (trace (loadSolutionContext ex_world_new_unnamed ex_tools ex_state_open).2)
    = load_calls (trace ex_state_open).
Proof.
  apply (new_env_requires_name ex_world_new_unnamed ex_tools ex_state_open ex_settings);
    vm_compute; reflexivity.
Defined.

(** C6 (legacy no-decrypt): a resolution of an open project loads a profile
    exactly when it passes the guard on the project path and the asking
    leaves a final name; it then makes one [loadEnvProfile] call, for that
    name, and the call receives [undefined] as its crypto provider when
    [ctx.projectIdMissing] is set and the provider keyed by
    [projectSettings.projectId] otherwise.  No other load is made, so
    every load of the resolution receives that provider, and a resolution
    that succeeds has made the call. *)
Theorem legacy_no_decrypt w tools s ps :
  projectSettings (ctx s) = Some ps →
  ∃ evs,
    trace (loadSolutionContext w tools s).2 = (trace s ++ evs)%list ∧
    load_calls evs =
      (if truthy (inputs s !! "projectPath") then
         match final_name w (inputs (askTargetEnvironment w s).2) with
         | Some n =>
             [LoadEnvProfile (inputs (askTargetEnvironment w s).2 !! "projectPath")
                n (if projectIdMissing (ctx s) then None
                   else Some {| crypto_key := projectId ps |})]
         | None => []
         end
       else []) ∧
    (∀ p n c, LoadEnvProfile p n c ∈ evs →
       c = if projectIdMissing (ctx s) then None
           else Some {| crypto_key := projectId ps |}) ∧
    (isErr (loadSolutionContext w tools s).1 = false →
     ∃ p n, load_calls evs =
       [LoadEnvProfile p n (if projectIdMissing (ctx s) then None
                            else Some {| crypto_key := projectId ps |})]).
Proof.
  intros Hs.
  destruct (truthy (inputs s !! "projectPath")) eqn:Hp.
  2: { rewrite (loadSolutionContext_rejected w tools s (or_introl Hp)).
       exists []. cbn. rewrite app_nil_r.
       split; [done|]. split; [done|]. split; [|done].
       intros p n c H. by apply elem_of_nil in H. }
  rewrite (loadSolutionContext_guarded w tools s ps Hp Hs). cbv zeta.
  destruct (askTargetEnvironment_frame w s) as (_ & _ & _ & _ & _ & evs & Ht & Hl).
  assert (∀ p n c, LoadEnvProfile p n c ∉ evs) as Hno.
  { intros p n c Hin. apply list_elem_of_In in Hin.
    assert (In (LoadEnvProfile p n c) (load_calls evs)) as Hin'
      by (apply List.filter_In; split; [exact Hin|reflexivity]).
    by rewrite Hl in Hin'. }
  destruct (final_name w _) as [n|]; cbn [fst snd].
  - exists (evs ++ [LoadEnvProfile (inputs (askTargetEnvironment w s).2 !! "projectPath") n
                       (if projectIdMissing (ctx s) then None
                        else Some {| crypto_key := projectId ps |})])%list.
    split; [cbn; rewrite Ht; by rewrite <- app_assoc|].
    split; [by rewrite load_calls_app, Hl|].
    split.
    + intros p n' c Hin. apply elem_of_app in Hin as [Hin|Hin].
      * by apply Hno in Hin.
      * apply list_elem_of_singleton in Hin. by inversion Hin.
    + intros _. eexists _, _. rewrite load_calls_app, Hl. reflexivity.
  - exists evs. split; [exact Ht|]. split; [exact Hl|]. split; [|done].
    intros p n c Hin. by apply Hno in Hin.
Qed.

Lemma legacy_no_decrypt_witness :
  ∃ evs,
    trace (loadSolutionContext ex_world_pick_prod ex_tools ex_state_legacy).2
      = (trace ex_state_legacy ++ evs)%list ∧
    load_calls evs =
      (if truthy (inputs ex_state_legacy !! "projectPath") then
         match final_name ex_world_pick_prod
                 (inputs (askTargetEnvironment ex_world_pick_prod ex_state_legacy).2)
         with
         | Some n =>
             [LoadEnvProfile
                (inputs (askTargetEnvironment ex_world_pick_prod ex_state_legacy).2
                   !! "projectPath")
                n (if projectIdMissing (ctx ex_state_legacy) then None
                   else Some {| crypto_key := projectId ex_settings |})]
         | None => []
         end
       else []) ∧
    (∀ p n c, LoadEnvProfile p n c ∈ evs →
       c = if projectIdMissing (ctx ex_state_legacy) then None
           else Some {| crypto_key := projectId ex_settings |}) ∧
    (isErr (loadSolutionContext ex_world_pick_prod ex_tools ex_state_legacy).1 = false →
     ∃ p n, load_calls evs =
       [LoadEnvProfile p n (if projectIdMissing (ctx ex_state_legacy) then None
                            else Some {| crypto_key := projectId ex_settings |})]).
Proof.
  apply (legacy_no_decrypt ex_world_pick_prod ex_tools ex_state_legacy ex_settings).
  reflexivity.
Defined.

(** The loads of the two sample resolutions: the legacy project's load
    receives no provider, the other one the provider keyed by the project
    id. *)
Example sample_loads :
  load_calls (trace (loadSolutionContext ex_world_pick_prod ex_tools ex_state_legacy).2)
    = [LoadEnvProfile (Some "/work/app") "prod" None] ∧
  load_calls (trace (loadSolutionContext ex_world_pick_prod ex_tools ex_state_open).2)
    = [LoadEnvProfile (Some "/work/app") "prod"
         (Some {| crypto_key := projectId ex_settings |})].
Proof. split; vm_compute; reflexivity. Qed.

(** C8 (existing or default name): past the guard, when the name selected
    after the asking is not the sentinel, the resolution makes exactly one
    registry load after the asking, for [inputs.targetEnvName] when that is
    set and for [environmentManager.defaultEnvName] when it is absent. *)
Theorem existing_or_default_name w tools s ps :
  truthy (inputs s !! "projectPath") = true →
  projectSettings (ctx s) = Some ps →
  candidate_name w (inputs (askTargetEnvironment w s).2) ≠ "+ new env" →
  ∃ final c,
    trace (loadSolutionContext w tools s).2
      = (trace (askTargetEnvironment w s).2
           ++ [LoadEnvProfile (inputs (askTargetEnvironment w s).2 !! "projectPath")
                 final c])%list ∧
    (∀ selected,
       inputs (askTargetEnvironment w s).2 !! "targetEnvName" = Some selected →
       final = selected) ∧
    (inputs (askTargetEnvironment w s).2 !! "targetEnvName" = None →
     final = defaultEnvName (environmentManager w)).
Proof.
  intros Hp Hs Hc.
  rewrite (loadSolutionContext_guarded w tools s ps Hp Hs). cbv zeta.
  unfold final_name. apply String.eqb_neq in Hc. rewrite Hc. cbn [snd].
  eexists _, _. split; [reflexivity|].
  unfold candidate_name. split.
  - by intros selected ->.
  - by intros ->.
Qed.

Lemma existing_or_default_name_witness :
  ∃ final c,
    trace (loadSolutionContext ex_world_pick_prod ex_tools ex_state_open).2
      = (trace (askTargetEnvironment ex_world_pick_prod ex_state_open).2
           ++ [LoadEnvProfile
                 (inputs (askTargetEnvironment ex_world_pick_prod ex_state_open).2
                    !! "projectPath") final c])%list ∧
    (∀ selected,
       inputs (askTargetEnvironment ex_world_pick_prod ex_state_open).2
         !! "targetEnvName" = Some selected →
       final = selected) ∧
    (inputs (askTargetEnvironment ex_world_pick_prod ex_state_open).2
       !! "targetEnvName" = None →
     final = defaultEnvName (environmentManager ex_world_pick_prod)).
Proof.
  apply (existing_or_default_name ex_world_pick_prod ex_tools ex_state_open ex_settings).
  - reflexivity.
  - reflexivity.
  - vm_compute. discriminate.
Defined.

(** A successful resolution passed the guard, made one registry load after
    the asking and assembled its context from the profile that the load
    answered. *)
Lemma loadSolutionContext_ok w tools s sc s' :
  loadSolutionContext w tools s = (ok sc, s') →
  ∃ ps evs p n envInfo,
    projectSettings (ctx s) = Some ps ∧
    inputs s' = inputs (askTargetEnvironment w s).2 ∧
    trace s' = (trace s ++ evs)%list ∧
    load_calls evs =
      [LoadEnvProfile p n (if projectIdMissing (ctx s) then None
                           else Some {| crypto_key := projectId ps |})] ∧
    loadEnvProfile (environmentManager w) p n
      (if projectIdMissing (ctx s) then None
       else Some {| crypto_key := projectId ps |}) = ok envInfo ∧
    sc = loaded_context ps envInfo tools (inputs s')
           {| crypto_key := projectId ps |}.
Proof.
  intros H.
  destruct (truthy (inputs s !! "projectPath")) eqn:Hp.
  2: { rewrite (loadSolutionContext_rejected w tools s (or_introl Hp)) in H.
       congruence. }
  destruct (projectSettings (ctx s)) as [ps|] eqn:Hs.
  2: { rewrite (loadSolutionContext_rejected w tools s (or_intror Hs)) in H.
       congruence. }
  rewrite (loadSolutionContext_guarded w tools s ps Hp Hs) in H. cbv zeta in H.
  destruct (askTargetEnvironment_frame w s) as (_ & _ & _ & _ & _ & evs & Ht & Hl).
  destruct (final_name w _) as [n|]; [|congruence].
  destruct (loadEnvProfile _ _ _ _) as [envInfo|e] eqn:Hload; [|congruence].
  injection H as <- <-.
  eexists ps, _, _, n, envInfo. cbn [emit snd inputs trace].
  split; [reflexivity|]. split; [reflexivity|].
  split; [by rewrite Ht, <- app_assoc|].
  split; [by rewrite load_calls_app, Hl|].
  split; [exact Hload|reflexivity].
Qed.

(** C10 (legacy context keeps the real provider): in a successful
    resolution of a project whose identity-missing flag is set, the
    registry load received [undefined], yet the [cryptoProvider] field of
    the assembled context is the provider keyed by
    [projectSettings.projectId]. *)
Theorem legacy_context_crypto w tools s ps sc s' :
  projectSettings (ctx s) = Some ps →
  projectIdMissing (ctx s) = true →
  loadSolutionContext w tools s = (ok sc, s') →
  sc !! "cryptoProvider" = Some (VCrypto {| crypto_key := projectId ps |}) ∧
  ∃ evs p n,
    trace s' = (trace s ++ evs)%list ∧ load_calls evs = [LoadEnvProfile p n None].
Proof.
  intros Hs Hm H.
  destruct (loadSolutionContext_ok w tools s sc s' H)
    as (ps' & evs & p & n & envInfo & Hs' & _ & Ht & Hl & _ & ->).
  rewrite Hs in Hs'. injection Hs' as <-. rewrite Hm in Hl.
  split; [by rewrite loaded_context_lookup|].
  by exists evs, p, n.
Qed.

Lemma legacy_context_crypto_witness :
  ex_context_prod !! "cryptoProvider"
    = Some (VCrypto {| crypto_key := projectId ex_settings |}) ∧
  ∃ evs p n,
    trace (loadSolutionContext ex_world_pick_prod ex_tools ex_state_legacy).2
      = (trace ex_state_legacy ++ evs)%list ∧
    load_calls evs = [LoadEnvProfile p n None].
Proof.
  apply (legacy_context_crypto ex_world_pick_prod ex_tools ex_state_legacy
           ex_settings ex_context_prod
           (loadSolutionContext ex_world_pick_prod ex_tools ex_state_legacy).2).
  - reflexivity.
  - reflexivity.
  - vm_compute. reflexivity.
Defined.

(** C7, as stated, fails: with a token provider that carries a
    [targetEnvName] property the resolution succeeds, the one registry
    load answers the profile named [prod], and the [targetEnvName] field
    of the assembled context is the token provider's value; so it is not
    true of every successful resolution that the field is the [envName]
    of the loaded profile. *)
Lemma context_name_counterexample :
  loadSolutionContext ex_world_pick_prod ex_tools_colliding ex_state_colliding
    = (ok ex_context_colliding,
       (loadSolutionContext ex_world_pick_prod ex_tools_colliding
          ex_state_colliding).2) ∧
  load_calls
    (trace (loadSolutionContext ex_world_pick_prod ex_tools_colliding
              ex_state_colliding).2)
    = [LoadEnvProfile (Some "/work/app") "prod"
         (Some {| crypto_key := projectId ex_settings |})] ∧
  loadEnvProfile (environmentManager ex_world_pick_prod) (Some "/work/app") "prod"
    (Some {| crypto_key := projectId ex_settings |})
    = ok {| envName := "prod"; data := ∅ |} ∧
  ex_context_colliding !! "targetEnvName" = Some (VHandle "token-env") ∧
  ¬ (∀ w tools s sc s',
       loadSolutionContext w tools s = (ok sc, s') →
       ∃ evs p n c envInfo,
         trace s' = (trace s ++ evs)%list ∧
         load_calls evs = [LoadEnvProfile p n c] ∧
         loadEnvProfile (environmentManager w) p n c = ok envInfo ∧
         sc !! "targetEnvName" = Some (VStr (envName envInfo))).
Proof.
  split; [vm_compute; reflexivity|]. split; [vm_compute; reflexivity|].
  split; [reflexivity|]. split; [vm_compute; reflexivity|].
  intros H.
  destruct (H ex_world_pick_prod ex_tools_colliding ex_state_colliding
              ex_context_colliding
              (loadSolutionContext ex_world_pick_prod ex_tools_colliding
                 ex_state_colliding).2)
    as (evs & p & n & c & envInfo & _ & _ & _ & Hsc).
  { vm_compute. reflexivity. }
  vm_compute in Hsc. discriminate.
Qed.

(** C7, amended (context name consistency): in a successful resolution
    whose tools and token provider carry no property named
    [targetEnvName] of their own, the [targetEnvName] field of the
    assembled context is the [envName] of the profile that the one
    registry load answered, whatever name that load was asked for. *)
Theorem context_name_consistency w tools s sc s' :
  loadSolutionContext w tools s = (ok sc, s') →
  tool_field tools "targetEnvName" = None →
  ∃ evs p n c envInfo,
    trace s' = (trace s ++ evs)%list ∧
    load_calls evs = [LoadEnvProfile p n c] ∧
    loadEnvProfile (environmentManager w) p n c = ok envInfo ∧
    sc !! "targetEnvName" = Some (VStr (envName envInfo)).
Proof.
  intros H Hfree.
  destruct (loadSolutionContext_ok w tools s sc s' H)
    as (ps & evs & p & n & envInfo & _ & _ & Ht & Hl & Hload & ->).
  eexists evs, p, n, _, envInfo.
  split; [exact Ht|]. split; [exact Hl|]. split; [exact Hload|].
  rewrite loaded_context_lookup, Hfree. reflexivity.
Qed.

Lemma context_name_consistency_witness :
  ∃ evs p n c envInfo,
    trace (loadSolutionContext ex_world_normalising ex_tools ex_state_open).2
      = (trace ex_state_open ++ evs)%list ∧
    load_calls evs = [LoadEnvProfile p n c] ∧
    loadEnvProfile (environmentManager ex_world_normalising) p n c = ok envInfo ∧
    ex_context_normalised !! "targetEnvName" = Some (VStr (envName envInfo)).
Proof.
  apply (context_name_consistency ex_world_normalising ex_tools ex_state_open
           ex_context_normalised
           (loadSolutionContext ex_world_normalising ex_tools ex_state_open).2).
  - vm_compute. reflexivity.
  - vm_compute. reflexivity.
Defined.

(** The registry was asked for [Dev]; the context names [dev]. *)
Example context_name_is_the_loaded_one :
  load_calls (trace (loadSolutionContext ex_world_normalising ex_tools ex_state_open).2)
    = [LoadEnvProfile (Some "/work/app") "Dev"
         (Some {| crypto_key := projectId ex_settings |})] ∧
  ex_context_normalised !! "targetEnvName" = Some (VStr "dev").
Proof. split; vm_compute; reflexivity. Qed.

(** C3, as stated, fails: with tools that carry [root] and [config] and a
    token provider that carries [targetEnvName] and [projectSettings], the
    resolution succeeds and every one of the four environment fields of
    the context holds the tool's value, not the environment-derived one. *)
Lemma merge_order_counterexample :
  loadSolutionContext ex_world_pick_prod ex_tools_colliding ex_state_colliding
    = (ok ex_context_colliding,
       (loadSolutionContext ex_world_pick_prod ex_tools_colliding ex_state_colliding).2) ∧
  ex_context_colliding !! "root" = Some (VHandle "tool-root") ∧
  ex_context_colliding !! "config" = Some (VHandle "tool-config") ∧
  ex_context_colliding !! "targetEnvName" = Some (VHandle "token-env") ∧
  ex_context_colliding !! "projectSettings" = Some (VHandle "token-settings") ∧
  ex_context_colliding !! "root" ≠ Some (VStr "/work/app") ∧
  ex_context_colliding !! "config" ≠ Some (VConfig ∅) ∧
  ex_context_colliding !! "targetEnvName" ≠ Some (VStr "prod") ∧
  ex_context_colliding !! "projectSettings" ≠ Some (VProjectSettings ex_settings).
Proof.
  repeat split; try (vm_compute; reflexivity); vm_compute; discriminate.
Qed.

(** C3, amended: the object literal writes [projectSettings],
    [targetEnvName], [config] and [root] first, spreads the tools and then
    their token provider over them, and writes [answers] and
    [cryptoProvider] last.  So every field of the context of a successful
    resolution is: for [cryptoProvider] and [answers], the provider keyed
    by the project id and the inputs; otherwise the property of that name
    of the token provider or else of the tools, when there is one;
    otherwise the environment-derived value. *)
Theorem merge_order w tools s sc s' :
  loadSolutionContext w tools s = (ok sc, s') →
  ∃ ps evs p n c envInfo,
    projectSettings (ctx s) = Some ps ∧
    trace s' = (trace s ++ evs)%list ∧
    load_calls evs = [LoadEnvProfile p n c] ∧
    loadEnvProfile (environmentManager w) p n c = ok envInfo ∧
    ∀ k : string,
      sc !! k =
        if String.eqb k "cryptoProvider"
        then Some (VCrypto {| crypto_key := projectId ps |})
        else if String.eqb k "answers" then Some (VInputs (inputs s'))
        else match tool_field tools k with
             | Some v => Some v
             | None => env_field ps envInfo (inputs s') k
             end.
Proof.
  intros H.
  destruct (loadSolutionContext_ok w tools s sc s' H)
    as (ps & evs & p & n & envInfo & Hs & _ & Ht & Hl & Hload & ->).
  eexists ps, evs, p, n, _, envInfo.
  split; [exact Hs|]. split; [exact Ht|]. split; [exact Hl|].
  split; [exact Hload|].
  intros k. apply loaded_context_lookup.
Qed.

Lemma merge_order_witness :
  ∃ ps evs p n c envInfo,
    projectSettings (ctx ex_state_colliding) = Some ps ∧
    trace (loadSolutionContext ex_world_pick_prod ex_tools_colliding
             ex_state_colliding).2
      = (trace ex_state_colliding ++ evs)%list ∧
    load_calls evs = [LoadEnvProfile p n c] ∧
    loadEnvProfile (environmentManager ex_world_pick_prod) p n c = ok envInfo ∧
    ∀ k : string,
      ex_context_colliding !! k =
        if String.eqb k "cryptoProvider"
        then Some (VCrypto {| crypto_key := projectId ps |})
        else if String.eqb k "answers"
        then Some (VInputs (inputs (loadSolutionContext ex_world_pick_prod
                                      ex_tools_colliding ex_state_colliding).2))
        else match tool_field ex_tools_colliding k with
             | Some v => Some v
             | None =>
                 env_field ps envInfo
                   (inputs (loadSolutionContext ex_world_pick_prod
                              ex_tools_colliding ex_state_colliding).2) k
             end.
Proof.
  apply (merge_order ex_world_pick_prod ex_tools_colliding ex_state_colliding
           ex_context_colliding
           (loadSolutionContext ex_world_pick_prod ex_tools_colliding
              ex_state_colliding).2).
  vm_compute. reflexivity.
Defined.

(** C4 (sentinel routing): when the project path is set and the registry
    lists the environments [L], [_getQuestionsForProvision] answers a root
    node on the shared select question, whose [staticOptions] are now
    ["+ new env"] followed by [L], with exactly one child, the new-name
    question; that child is visible exactly for the root answer
    ["+ new env"], and a traversal whose root prompt is answered presents
    the child exactly in that case. *)
Theorem sentinel_routing w s projectPath L :
  inputs s !! "projectPath" = Some projectPath →
  projectPath ≠ "" →
  listEnvProfiles (environmentManager w) projectPath = ok L →
  ∃ root child s',
    _getQuestionsForProvision w s = (ok (Some root), s') ∧
    node_data root = DataQuestion SelectTargetEnvironmentRef ∧
    staticOptions (deref (questions s') SelectTargetEnvironmentRef)
      = "+ new env" :: L ∧
    children root = [child] ∧
    node_data child = DataQuestion NewTargetEnvironmentNameRef ∧
    children child = [] ∧
    (∀ answer, visible child answer = true ↔ answer = "+ new env") ∧
    (∀ ui answers answer,
       ui (deref (questions s') SelectTargetEnvironmentRef) answers = ok answer →
       (traverse_model ui (questions s') root answers).1.2 =
         SelectTargetEnvironmentRef ::
           (if String.eqb answer "+ new env"
            then [NewTargetEnvironmentNameRef] else [])).
Proof.
  intros Hp Hne HL.
  unfold _getQuestionsForProvision. run. rewrite Hp. cbn [truthy].
  apply String.eqb_neq in Hne. rewrite Hne. cbn [negb]. rewrite HL. cbn.
  eexists _, _, _. split; [reflexivity|]. cbn.
  repeat (split; [reflexivity|]). split.
  - intros answer. unfold visible. cbn. apply String.eqb_eq.
  - intros ui answers answer Hui. rewrite Hui. unfold visible. cbn.
    destruct (String.eqb answer "+ new env"); [|reflexivity].
    by destruct (ui (QuestionNewTargetEnvironmentName _) _).
Qed.

Lemma sentinel_routing_witness :
  ∃ root child s',
    _getQuestionsForProvision ex_world_pick_prod ex_state_open
      = (ok (Some root), s') ∧
    node_data root = DataQuestion SelectTargetEnvironmentRef ∧
    staticOptions (deref (questions s') SelectTargetEnvironmentRef)
      = "+ new env" :: ["dev"; "prod"] ∧
    children root = [child] ∧
    node_data child = DataQuestion NewTargetEnvironmentNameRef ∧
    children child = [] ∧
    (∀ answer, visible child answer = true ↔ answer = "+ new env") ∧
    (∀ ui answers answer,
       ui (deref (questions s') SelectTargetEnvironmentRef) answers = ok answer →
       (traverse_model ui (questions s') root answers).1.2 =
         SelectTargetEnvironmentRef ::
           (if String.eqb answer "+ new env"
            then [NewTargetEnvironmentNameRef] else [])).
Proof.
  apply (sentinel_routing ex_world_pick_prod ex_state_open "/work/app" ["dev"; "prod"]).
  - reflexivity.
  - discriminate.
  - reflexivity.
Defined.

(** The select question is one shared object: building the tree again for
    another listing rewrites the options seen through the first tree. *)
Example select_question_is_shared :
  staticOptions
    (deref (questions (_getQuestionsForProvision ex_world_normalising
                         (_getQuestionsForProvision ex_world_pick_prod
                            ex_state_open).2).2)
       SelectTargetEnvironmentRef)
    = ["+ new env"; "dev"].
Proof. vm_compute. reflexivity. Qed.

(** The fields that [newSolutionContext] writes before its spreads survive
    them when the tools carry no property of that name. *)
Lemma newSolutionContext_lookup_free w tools (i : Inputs) s (k : string) :
  k ≠ "cryptoProvider" → k ≠ "answers" → tool_field tools k = None →
  (newSolutionContext w tools i s).1 !! k =
    (<["root" := VStr (or_else (i !! "projectPath") "")]>
       (<["config" := VConfig ∅]>
          (<["projectSettings" :=
               VProjectSettings
                 {| appName := ""; projectId := uuid_v4 w (uuid_calls s);
                    solutionSettings :=
                      {| ss_name := "fx-solution-azure";
                         ss_version := "1.0.0" |} |}]>
             (∅ : JsObject)))) !! k.
Proof.
  intros Hc Ha Hfree. unfold newSolutionContext, tool_field, spread in *. run.
  rewrite !lookup_insert_ne by done.
  rewrite (assoc_L (∪)). by rewrite lookup_union_r.
Qed.

(** C9, as stated, fails: with tools that carry [projectSettings] and
    [config] properties of their own, two invocations of
    [newSolutionContext] (with an identifier source that never repeats
    itself) produce contexts that hold the same project settings, hence
    the same [projectId], and a [config] that is not empty, while their
    crypto providers are keyed by the two identities that were minted. *)
Lemma idempotent_synthesis_counterexample :
  (newSolutionContext ex_world_cancel ex_tools_with_settings ∅ ex_state_open).1
    !! "projectSettings" = Some (VProjectSettings ex_settings) ∧
  (newSolutionContext ex_world_cancel ex_tools_with_settings ex_inputs
     (newSolutionContext ex_world_cancel ex_tools_with_settings ∅ ex_state_open).2).1
    !! "projectSettings" = Some (VProjectSettings ex_settings) ∧
  (newSolutionContext ex_world_cancel ex_tools_with_settings ∅ ex_state_open).1
    !! "config" = Some (VConfig {["fx-resource" := ∅]}) ∧
  (newSolutionContext ex_world_cancel ex_tools_with_settings ∅ ex_state_open).1
    !! "cryptoProvider" = Some (VCrypto {| crypto_key := "0" |}) ∧
  (newSolutionContext ex_world_cancel ex_tools_with_settings ex_inputs
     (newSolutionContext ex_world_cancel ex_tools_with_settings ∅ ex_state_open).2).1
    !! "cryptoProvider" = Some (VCrypto {| crypto_key := "1" |}) ∧
  ¬ (∀ w tools1 (inputs1 : Inputs) s1 tools2 (inputs2 : Inputs) s2,
       (∀ m n, uuid_v4 w m = uuid_v4 w n → m = n) →
       (uuid_calls (newSolutionContext w tools1 inputs1 s1).2 ≤ uuid_calls s2)%nat →
       ∃ ps1 ps2,
         (newSolutionContext w tools1 inputs1 s1).1 !! "projectSettings"
           = Some (VProjectSettings ps1) ∧
         (newSolutionContext w tools2 inputs2 s2).1 !! "projectSettings"
           = Some (VProjectSettings ps2) ∧
         projectId ps1 ≠ projectId ps2 ∧
         (newSolutionContext w tools1 inputs1 s1).1 !! "config"
           = Some (VConfig ∅) ∧
         (newSolutionContext w tools2 inputs2 s2).1 !! "config"
           = Some (VConfig ∅)).
Proof.
  split; [vm_compute; reflexivity|]. split; [vm_compute; reflexivity|].
  split; [vm_compute; reflexivity|]. split; [vm_compute; reflexivity|].
  split; [vm_compute; reflexivity|].
  intros H.
  destruct (H ex_world_cancel ex_tools_with_settings ∅ ex_state_open
              ex_tools_with_settings ex_inputs
              (newSolutionContext ex_world_cancel ex_tools_with_settings ∅
                 ex_state_open).2)
    as (ps1 & ps2 & H1 & H2 & Hne & _).
  { intros m n Hmn. exact (pretty_nat_inj m n Hmn). }
  { vm_compute. lia. }
  vm_compute in H1. vm_compute in H2.
  injection H1 as <-. injection H2 as <-. by apply Hne.
Qed.

(** C9, amended (idempotent synthesis): [uuid.v4()] never returning the
    same value twice and the tools and their token provider carrying no
    property named [projectSettings] or [config], two invocations of
    [newSolutionContext], the second one at any point after the first,
    produce contexts whose project settings
    have different [projectId]s and the same solution settings
    ([fx-solution-azure], [1.0.0]), whose [config] is the empty map and
    whose [cryptoProvider] is keyed by their own new [projectId]; neither
    invocation calls the registry. *)
Theorem idempotent_synthesis w tools1 (inputs1 : Inputs) s1
    tools2 (inputs2 : Inputs) s2 :
  (∀ m n, uuid_v4 w m = uuid_v4 w n → m = n) →
  (uuid_calls (newSolutionContext w tools1 inputs1 s1).2 ≤ uuid_calls s2)%nat →
  tool_field tools1 "projectSettings" = None →
  tool_field tools1 "config" = None →
  tool_field tools2 "projectSettings" = None →
  tool_field tools2 "config" = None →
  ∃ ps1 ps2,
    (newSolutionContext w tools1 inputs1 s1).1 !! "projectSettings"
      = Some (VProjectSettings ps1) ∧
    (newSolutionContext w tools2 inputs2 s2).1 !! "projectSettings"
      = Some (VProjectSettings ps2) ∧
    projectId ps1 ≠ projectId ps2 ∧
    solutionSettings ps1
      = {| ss_name := "fx-solution-azure"; ss_version := "1.0.0" |} ∧
    solutionSettings ps2 = solutionSettings ps1 ∧
    (newSolutionContext w tools1 inputs1 s1).1 !! "config" = Some (VConfig ∅) ∧
    (newSolutionContext w tools2 inputs2 s2).1 !! "config" = Some (VConfig ∅) ∧
    (newSolutionContext w tools1 inputs1 s1).1 !! "cryptoProvider"
      = Some (VCrypto {| crypto_key := projectId ps1 |}) ∧
    (newSolutionContext w tools2 inputs2 s2).1 !! "cryptoProvider"
      = Some (VCrypto {| crypto_key := projectId ps2 |}) ∧
    registry_calls (trace (newSolutionContext w tools1 inputs1 s1).2)
      = registry_calls (trace s1) ∧
    registry_calls (trace (newSolutionContext w tools2 inputs2 s2).2)
      = registry_calls (trace s2).
Proof.
  intros Hinj Hlater Hp1 Hc1 Hp2 Hc2.
  eexists _, _.
  split; [by rewrite newSolutionContext_lookup_free by done|].
  split; [by rewrite newSolutionContext_lookup_free by done|].
  split.
  { cbn. intros E. apply Hinj in E. cbn in Hlater. lia. }
  split; [reflexivity|]. split; [reflexivity|].
  split; [by rewrite newSolutionContext_lookup_free by done|].
  split; [by rewrite newSolutionContext_lookup_free by done|].
  split; [unfold newSolutionContext; run; by rewrite lookup_insert_eq|].
  split; [unfold newSolutionContext; run; by rewrite lookup_insert_eq|].
  split; unfold newSolutionContext; run; cbn;
    by rewrite registry_calls_app, app_nil_r.
Qed.

Lemma idempotent_synthesis_witness :
  ∃ ps1 ps2,
    (newSolutionContext ex_world_cancel ex_tools ∅ ex_state_open).1
      !! "projectSettings" = Some (VProjectSettings ps1) ∧
    (newSolutionContext ex_world_cancel ex_tools ex_inputs
       (newSolutionContext ex_world_cancel ex_tools ∅ ex_state_open).2).1
      !! "projectSettings" = Some (VProjectSettings ps2) ∧
    projectId ps1 ≠ projectId ps2 ∧
    solutionSettings ps1
      = {| ss_name := "fx-solution-azure"; ss_version := "1.0.0" |} ∧
    solutionSettings ps2 = solutionSettings ps1 ∧
    (newSolutionContext ex_world_cancel ex_tools ∅ ex_state_open).1 !! "config"
      = Some (VConfig ∅) ∧
    (newSolutionContext ex_world_cancel ex_tools ex_inputs
       (newSolutionContext ex_world_cancel ex_tools ∅ ex_state_open).2).1
      !! "config" = Some (VConfig ∅) ∧
    (newSolutionContext ex_world_cancel ex_tools ∅ ex_state_open).1
      !! "cryptoProvider" = Some (VCrypto {| crypto_key := projectId ps1 |}) ∧
    (newSolutionContext ex_world_cancel ex_tools ex_inputs
       (newSolutionContext ex_world_cancel ex_tools ∅ ex_state_open).2).1
      !! "cryptoProvider" = Some (VCrypto {| crypto_key := projectId ps2 |}) ∧
    registry_calls
      (trace (newSolutionContext ex_world_cancel ex_tools ∅ ex_state_open).2)
      = registry_calls (trace ex_state_open) ∧
    registry_calls
      (trace (newSolutionContext ex_world_cancel ex_tools ex_inputs
                (newSolutionContext ex_world_cancel ex_tools ∅ ex_state_open).2).2)
      = registry_calls
          (trace (newSolutionContext ex_world_cancel ex_tools ∅ ex_state_open).2).
Proof.
  apply (idempotent_synthesis ex_world_cancel ex_tools ∅ ex_state_open
           ex_tools ex_inputs
           (newSolutionContext ex_world_cancel ex_tools ∅ ex_state_open).2).
  - intros m n H. exact (pretty_nat_inj m n H).
  - vm_compute. lia.
  - vm_compute. reflexivity.
  - vm_compute. reflexivity.
  - vm_compute. reflexivity.
  - vm_compute. reflexivity.
Defined.

(** The two identities minted in the sample run. *)
Example synthesis_mints_distinct_ids :
  (newSolutionContext ex_world_cancel ex_tools ∅ ex_state_open).1
    !! "cryptoProvider" = Some (VCrypto {| crypto_key := "0" |}) ∧
  (newSolutionContext ex_world_cancel ex_tools ex_inputs
     (newSolutionContext ex_world_cancel ex_tools ∅ ex_state_open).2).1
    !! "cryptoProvider" = Some (VCrypto {| crypto_key := "1" |}).
Proof. split; vm_compute; reflexivity. Qed.

(** C1, on the code: the operator cancels the root prompt.
    [askTargetEnvironment] records the cancellation in [ctx.result] and
    returns; [loadSolutionContext] does not look at it, resolves the
    default environment, loads its profile from the registry and answers
    a context; the middleware stores that context and calls [next]. *)
Theorem cancelled_prompt_still_loads :
  result (ctx (askTargetEnvironment ex_world_cancel ex_state_open).2)
    = Some UserCancel ∧
  (loadSolutionContext ex_world_cancel ex_tools ex_state_open).1
    = ok ex_context_default ∧
  load_calls (trace (loadSolutionContext ex_world_cancel ex_tools ex_state_open).2)
    = [LoadEnvProfile (Some "/work/app") "default"
         (Some {| crypto_key := projectId ex_settings |})] ∧
  solutionContext (ctx (EnvLoaderMW ex_world_cancel ex_state_open).2)
    = Some ex_context_default ∧
  trace (EnvLoaderMW ex_world_cancel ex_state_open).2 =
    [ ListEnvProfiles "/work/app";
      Log LogDebug "[core] success to get questions for target environment." NoArg;
      Log LogDebug "[core] success to get questions for target environment" NoArg;
      Traverse
        (mkQTreeNode (DataQuestion SelectTargetEnvironmentRef) None
           [mkQTreeNode (DataQuestion NewTargetEnvironmentNameRef)
              (Some (Equals "+ new env")) []]);
      Log LogDebug "[core] failed to run question model for target environment"
        NoArg;
      LoadEnvProfile (Some "/work/app") "default"
        (Some {| crypto_key := projectId ex_settings |});
      Next ].
Proof. repeat split; vm_compute; reflexivity. Qed.

(** ** Further properties of the middleware and the resolution *)

Lemma asking_events_app t1 t2 :
  forallb is_asking_event (t1 ++ t2)
    = forallb is_asking_event t1 && forallb is_asking_event t2.
Proof. apply List.forallb_app. Qed.

(** What the asking adds to the trace is the listing, the traversal and
    log lines only. *)
Lemma askTargetEnvironment_events w s :
  ∃ evs, trace (askTargetEnvironment w s).2 = (trace s ++ evs)%list ∧
         forallb is_asking_event evs = true.
Proof.
  unfold askTargetEnvironment, _getQuestionsForProvision. run.
  destruct (inputs s !! "projectPath") as [p|]; cbn.
  2: { eexists; split; [reflexivity|reflexivity]. }
  destruct (String.eqb p ""); cbn.
  { eexists; split; [reflexivity|reflexivity]. }
  destruct (listEnvProfiles (environmentManager w) p); cbn.
  2: { rewrite <- !app_assoc. eexists; split; [reflexivity|reflexivity]. }
  destruct (traverse w _ _ _) as [i' [[]|e]]; cbn;
    rewrite <- !app_assoc; eexists; (split; [reflexivity|reflexivity]).
Qed.

(** What a resolution adds to the trace is asking events, followed by at
    most one registry load. *)
Lemma loadSolutionContext_events w tools s :
  ∃ evs, trace (loadSolutionContext w tools s).2 = (trace s ++ evs)%list ∧
         (Next ∉ evs) ∧ (UuidV4 ∉ evs).
Proof.
  destruct (truthy (inputs s !! "projectPath")) eqn:Hp.
  2: { rewrite (loadSolutionContext_rejected w tools s (or_introl Hp)).
       exists []. rewrite app_nil_r. repeat split; by intros ?%elem_of_nil. }
  destruct (projectSettings (ctx s)) as [ps|] eqn:Hs.
  2: { rewrite (loadSolutionContext_rejected w tools s (or_intror Hs)).
       exists []. rewrite app_nil_r. repeat split; by intros ?%elem_of_nil. }
  rewrite (loadSolutionContext_guarded w tools s ps Hp Hs). cbv zeta.
  destruct (askTargetEnvironment_events w s) as (evs & Ht & Hall).
  assert (∀ e, e ∈ evs → is_asking_event e = true) as Hev.
  { intros e He. apply list_elem_of_In in He.
    by apply (proj1 (List.forallb_forall _ _) Hall). }
  destruct (final_name w _) as [n|]; cbn [snd emit trace].
  - eexists (evs ++ [_])%list. rewrite Ht, <- app_assoc.
    split; [reflexivity|].
    split; intros [H|H%list_elem_of_singleton]%elem_of_app;
      try discriminate; by apply Hev in H.
  - exists evs. split; [exact Ht|]. split; intros H; by apply Hev in H.
Qed.

(** X1 (middleware without a project): when [ctx.projectSettings] is
    absent the middleware only calls [next]: no prompt, no registry call,
    and the inputs, the context and the shared questions are untouched. *)
Theorem middleware_without_project w s :
  projectSettings (ctx s) = None →
  inputs (EnvLoaderMW w s).2 = inputs s ∧
  ctx (EnvLoaderMW w s).2 = ctx s ∧
  questions (EnvLoaderMW w s).2 = questions s ∧
  uuid_calls (EnvLoaderMW w s).2 = uuid_calls s ∧
  trace (EnvLoaderMW w s).2 = (trace s ++ [Next])%list.
Proof.
  intros Hs. unfold EnvLoaderMW. run. rewrite Hs. by cbn.
Qed.

Lemma middleware_without_project_witness :
  inputs (EnvLoaderMW ex_world_pick_prod ex_state_closed).2
    = inputs ex_state_closed ∧
  ctx (EnvLoaderMW ex_world_pick_prod ex_state_closed).2 = ctx ex_state_closed ∧
  questions (EnvLoaderMW ex_world_pick_prod ex_state_closed).2
    = questions ex_state_closed ∧
  uuid_calls (EnvLoaderMW ex_world_pick_prod ex_state_closed).2
    = uuid_calls ex_state_closed ∧
  trace (EnvLoaderMW ex_world_pick_prod ex_state_closed).2
    = (trace ex_state_closed ++ [Next])%list.
Proof.
  apply (middleware_without_project ex_world_pick_prod ex_state_closed).
  reflexivity.
Defined.

(** X2 (middleware on a failed resolution): when the project settings are
    present and [loadSolutionContext] answers [err(e)], the middleware
    stores [err(e)] in [ctx.result], leaves [ctx.solutionContext] as it
    was and never calls [next]. *)
Theorem middleware_on_failure w s ps e :
  projectSettings (ctx s) = Some ps →
  (loadSolutionContext w (tools (ctx s)) s).1 = err e →
  result (ctx (EnvLoaderMW w s).2) = Some e ∧
  solutionContext (ctx (EnvLoaderMW w s).2) = solutionContext (ctx s) ∧
  ∃ evs, trace (EnvLoaderMW w s).2 = (trace s ++ evs)%list ∧ Next ∉ evs.
Proof.
  intros Hs He.
  destruct (loadSolutionContext_events w (tools (ctx s)) s) as (evs & Ht & Hn & _).
  assert (solutionContext (ctx (loadSolutionContext w (tools (ctx s)) s).2)
          = solutionContext (ctx s)) as Hsc.
  { destruct (truthy (inputs s !! "projectPath")) eqn:Hp.
    2: by rewrite (loadSolutionContext_rejected w _ s (or_introl Hp)).
    rewrite (loadSolutionContext_guarded w _ s ps Hp Hs). cbv zeta.
    destruct (askTargetEnvironment_frame w s) as (_ & _ & _ & H & _).
    by destruct (final_name w _). }
  unfold EnvLoaderMW. cbv beta iota zeta delta [bind get]. rewrite Hs.
  destruct (loadSolutionContext w (tools (ctx s)) s) as [r s1].
  cbn [fst snd] in *. subst r. run. cbn.
  split; [reflexivity|]. split; [exact Hsc|]. by exists evs.
Qed.

Lemma middleware_on_failure_witness :
  result (ctx (EnvLoaderMW ex_world_missing ex_state_open).2)
    = Some ProfileNotFound ∧
  solutionContext (ctx (EnvLoaderMW ex_world_missing ex_state_open).2)
    = solutionContext (ctx ex_state_open) ∧
  ∃ evs, trace (EnvLoaderMW ex_world_missing ex_state_open).2
           = (trace ex_state_open ++ evs)%list ∧ Next ∉ evs.
Proof.
  apply (middleware_on_failure ex_world_missing ex_state_open ex_settings
           ProfileNotFound).
  - reflexivity.
  - vm_compute. reflexivity.
Defined.

(** X3 (middleware on a successful resolution): when
    [loadSolutionContext] answers [ok(sc)], the middleware stores [sc] in
    [ctx.solutionContext] and then calls [next], once, as its last step;
    it does not touch [ctx.result], which keeps whatever the asking left
    there. *)
Theorem middleware_on_success w s ps sc :
  projectSettings (ctx s) = Some ps →
  (loadSolutionContext w (tools (ctx s)) s).1 = ok sc →
  solutionContext (ctx (EnvLoaderMW w s).2) = Some sc ∧
  result (ctx (EnvLoaderMW w s).2) = result (ctx (askTargetEnvironment w s).2) ∧
  inputs (EnvLoaderMW w s).2 = inputs (askTargetEnvironment w s).2 ∧
  ∃ evs, trace (EnvLoaderMW w s).2 = (trace s ++ evs ++ [Next])%list ∧ Next ∉ evs.
Proof.
  intros Hs Hok.
  destruct (loadSolutionContext_events w (tools (ctx s)) s) as (evs & Ht & Hn & _).
  assert (result (ctx (loadSolutionContext w (tools (ctx s)) s).2)
            = result (ctx (askTargetEnvironment w s).2) ∧
          inputs (loadSolutionContext w (tools (ctx s)) s).2
            = inputs (askTargetEnvironment w s).2) as [Hr Hi].
  { destruct (truthy (inputs s !! "projectPath")) eqn:Hp.
    2: { rewrite (loadSolutionContext_rejected w _ s (or_introl Hp)) in Hok.
         discriminate. }
    rewrite (loadSolutionContext_guarded w _ s ps Hp Hs). cbv zeta.
    by destruct (final_name w _). }
  unfold EnvLoaderMW. cbv beta iota zeta delta [bind get]. rewrite Hs.
  destruct (loadSolutionContext w (tools (ctx s)) s) as [r s1].
  cbn [fst snd] in *. subst r. run. cbn.
  split; [reflexivity|]. split; [exact Hr|]. split; [exact Hi|].
  exists evs. by rewrite Ht, <- app_assoc.
Qed.

Lemma middleware_on_success_witness :
  solutionContext (ctx (EnvLoaderMW ex_world_pick_prod ex_state_open).2)
    = Some ex_context_prod ∧
  result (ctx (EnvLoaderMW ex_world_pick_prod ex_state_open).2)
    = result (ctx (askTargetEnvironment ex_world_pick_prod ex_state_open).2) ∧
  inputs (EnvLoaderMW ex_world_pick_prod ex_state_open).2
    = inputs (askTargetEnvironment ex_world_pick_prod ex_state_open).2 ∧
  ∃ evs, trace (EnvLoaderMW ex_world_pick_prod ex_state_open).2
           = (trace ex_state_open ++ evs ++ [Next])%list ∧ Next ∉ evs.
Proof.
  apply (middleware_on_success ex_world_pick_prod ex_state_open ex_settings
           ex_context_prod).
  - reflexivity.
  - vm_compute. reflexivity.
Defined.

(** X4 (middleware on a project without a path): with project settings
    present and [inputs.projectPath] absent or empty, the middleware ends
    with [ctx.result = err(NoProjectOpenedError())]; nothing else changes:
    no prompt, no registry call, no [next]. *)
Theorem middleware_without_path w s ps :
  projectSettings (ctx s) = Some ps →
  truthy (inputs s !! "projectPath") = false →
  result (ctx (EnvLoaderMW w s).2) = Some NoProjectOpenedError ∧
  solutionContext (ctx (EnvLoaderMW w s).2) = solutionContext (ctx s) ∧
  inputs (EnvLoaderMW w s).2 = inputs s ∧
  questions (EnvLoaderMW w s).2 = questions s ∧
  trace (EnvLoaderMW w s).2 = trace s.
Proof.
  intros Hs Hp. unfold EnvLoaderMW. cbv beta iota zeta delta [bind get].
  rewrite Hs, (loadSolutionContext_rejected w _ s (or_introl Hp)). by run.
Qed.

Lemma middleware_without_path_witness :
  result (ctx (EnvLoaderMW ex_world_pick_prod ex_state_empty_path).2)
    = Some NoProjectOpenedError ∧
  solutionContext (ctx (EnvLoaderMW ex_world_pick_prod ex_state_empty_path).2)
    = solutionContext (ctx ex_state_empty_path) ∧
  inputs (EnvLoaderMW ex_world_pick_prod ex_state_empty_path).2
    = inputs ex_state_empty_path ∧
  questions (EnvLoaderMW ex_world_pick_prod ex_state_empty_path).2
    = questions ex_state_empty_path ∧
  trace (EnvLoaderMW ex_world_pick_prod ex_state_empty_path).2
    = trace ex_state_empty_path.
Proof.
  apply (middleware_without_path ex_world_pick_prod ex_state_empty_path
           ex_settings); reflexivity.
Defined.

(** X5 (the registry load decides the outcome): in every resolution, a
    [loadEnvProfile] call that was made and failed with [e] makes
    [loadSolutionContext] answer [err(e)] itself, unchanged; one that
    succeeded makes it answer a context. *)
Theorem load_outcome_is_the_result w tools s evs p n c :
  trace (loadSolutionContext w tools s).2 = (trace s ++ evs)%list →
  LoadEnvProfile p n c ∈ evs →
  match loadEnvProfile (environmentManager w) p n c with
  | err e => (loadSolutionContext w tools s).1 = err e
  | ok _ => isErr (loadSolutionContext w tools s).1 = false
  end.
Proof.
  intros Ht Hin.
  destruct (truthy (inputs s !! "projectPath")) eqn:Hp.
  2: { rewrite (loadSolutionContext_rejected w tools s (or_introl Hp)) in Ht.
       cbn in Ht. rewrite <- (app_nil_r (trace s)) in Ht at 1.
       apply app_inv_head in Ht. subst evs. by apply elem_of_nil in Hin. }
  destruct (projectSettings (ctx s)) as [ps|] eqn:Hs.
  2: { rewrite (loadSolutionContext_rejected w tools s (or_intror Hs)) in Ht.
       cbn in Ht. rewrite <- (app_nil_r (trace s)) in Ht at 1.
       apply app_inv_head in Ht. subst evs. by apply elem_of_nil in Hin. }
  rewrite (loadSolutionContext_guarded w tools s ps Hp Hs) in *. cbv zeta in *.
  destruct (askTargetEnvironment_events w s) as (evs0 & Ht0 & Hall).
  assert (∀ e, e ∈ evs0 → is_asking_event e = true) as Hev.
  { intros e He. apply list_elem_of_In in He.
    by apply (proj1 (List.forallb_forall _ _) Hall). }
  destruct (final_name w _) as [n0|]; cbn [fst snd emit trace] in *.
  - rewrite Ht0, <- app_assoc in Ht. apply app_inv_head in Ht. subst evs.
    apply elem_of_app in Hin as [Hin|Hin%list_elem_of_singleton].
    { by apply Hev in Hin. }
    injection Hin as -> -> ->.
    by destruct (loadEnvProfile _ _ _ _).
  - rewrite Ht0 in Ht. apply app_inv_head in Ht. subst evs.
    by apply Hev in Hin.
Qed.

Lemma load_outcome_is_the_result_witness :
  match loadEnvProfile (environmentManager ex_world_missing) (Some "/work/app")
          "prod" (Some {| crypto_key := projectId ex_settings |}) with
  | err e => (loadSolutionContext ex_world_missing ex_tools ex_state_open).1 = err e
  | ok _ => isErr (loadSolutionContext ex_world_missing ex_tools ex_state_open).1
            = false
  end.
Proof.
  apply (load_outcome_is_the_result ex_world_missing ex_tools ex_state_open
           [ ListEnvProfiles "/work/app";
             Log LogDebug "[core] success to get questions for target environment."
               NoArg;
             Log LogDebug "[core] success to get questions for target environment"
               NoArg;
             Traverse ex_tree;
             Log LogInfo
               "[core] success to run question model for target environment, answers:"
               (JsonStringify (<["targetEnvName" := "prod"]> ex_inputs));
             LoadEnvProfile (Some "/work/app") "prod"
               (Some {| crypto_key := projectId ex_settings |}) ]).
  - vm_compute. reflexivity.
  - do 5 apply list_elem_of_further. apply list_elem_of_here.
Defined.

(** X6 (a named new environment): past the guard, when the name selected
    after the asking is the sentinel and [inputs.newTargetEnvName] is a
    non-empty string, the one registry load after the asking is for that
    new name. *)
Theorem new_env_name_is_loaded w tools s ps name :
  truthy (inputs s !! "projectPath") = true →
  projectSettings (ctx s) = Some ps →
  candidate_name w (inputs (askTargetEnvironment w s).2) = "+ new env" →
  inputs (askTargetEnvironment w s).2 !! "newTargetEnvName" = Some name →
  name ≠ "" →
  ∃ c,
    trace (loadSolutionContext w tools s).2
      = (trace (askTargetEnvironment w s).2
           ++ [LoadEnvProfile (inputs (askTargetEnvironment w s).2 !! "projectPath")
                 name c])%list.
Proof.
  intros Hp Hs Hc Hn Hne.
  rewrite (loadSolutionContext_guarded w tools s ps Hp Hs). cbv zeta.
  unfold final_name. rewrite Hc, String.eqb_refl, Hn. cbn [truthy].
  apply String.eqb_neq in Hne. rewrite Hne. cbn [negb snd].
  eexists. reflexivity.
Qed.

Lemma new_env_name_is_loaded_witness :
  ∃ c,
    trace (loadSolutionContext ex_world_new_staging ex_tools ex_state_open).2
      = (trace (askTargetEnvironment ex_world_new_staging ex_state_open).2
           ++ [LoadEnvProfile
                 (inputs (askTargetEnvironment ex_world_new_staging ex_state_open).2
                    !! "projectPath") "staging" c])%list.
Proof.
  apply (new_env_name_is_loaded ex_world_new_staging ex_tools ex_state_open
           ex_settings "staging").
  - reflexivity.
  - reflexivity.
  - vm_compute. reflexivity.
  - vm_compute. reflexivity.
  - discriminate.
Defined.

(** X7 (the sentinel as a name): a resolution asks the registry for the
    profile named ["+ new env"] only when the sentinel was selected and
    [inputs.newTargetEnvName] is itself ["+ new env"]. *)
Theorem sentinel_is_loaded_only_if_typed w tools s evs p c :
  trace (loadSolutionContext w tools s).2 = (trace s ++ evs)%list →
  LoadEnvProfile p "+ new env" c ∈ evs →
  candidate_name w (inputs (askTargetEnvironment w s).2) = "+ new env" ∧
  inputs (askTargetEnvironment w s).2 !! "newTargetEnvName" = Some "+ new env".
Proof.
  intros Ht Hin.
  destruct (truthy (inputs s !! "projectPath")) eqn:Hp.
  2: { rewrite (loadSolutionContext_rejected w tools s (or_introl Hp)) in Ht.
       cbn in Ht. rewrite <- (app_nil_r (trace s)) in Ht at 1.
       apply app_inv_head in Ht. subst evs. by apply elem_of_nil in Hin. }
  destruct (projectSettings (ctx s)) as [ps|] eqn:Hs.
  2: { rewrite (loadSolutionContext_rejected w tools s (or_intror Hs)) in Ht.
       cbn in Ht. rewrite <- (app_nil_r (trace s)) in Ht at 1.
       apply app_inv_head in Ht. subst evs. by apply elem_of_nil in Hin. }
  rewrite (loadSolutionContext_guarded w tools s ps Hp Hs) in Ht. cbv zeta in Ht.
  destruct (askTargetEnvironment_events w s) as (evs0 & Ht0 & Hall).
  assert (∀ e, e ∈ evs0 → is_asking_event e = true) as Hev.
  { intros e He. apply list_elem_of_In in He.
    by apply (proj1 (List.forallb_forall _ _) Hall). }
  destruct (final_name w _) as [n0|] eqn:Hfin; cbn [fst snd emit trace] in Ht.
  2: { rewrite Ht0 in Ht. apply app_inv_head in Ht. subst evs.
       by apply Hev in Hin. }
  rewrite Ht0, <- app_assoc in Ht. apply app_inv_head in Ht. subst evs.
  apply elem_of_app in Hin as [Hin|Hin%list_elem_of_singleton].
  { by apply Hev in Hin. }
  injection Hin as _ <- _. unfold final_name in Hfin.
  destruct (String.eqb_spec (candidate_name w (inputs (askTargetEnvironment w s).2))
              "+ new env") as [Hc|Hc].
  - split; [exact Hc|]. by destruct (truthy _).
  - by injection Hfin as Hfin.
Qed.

Lemma sentinel_is_loaded_only_if_typed_witness :
  candidate_name ex_world_new_sentinel
    (inputs (askTargetEnvironment ex_world_new_sentinel ex_state_open).2)
    = "+ new env" ∧
  inputs (askTargetEnvironment ex_world_new_sentinel ex_state_open).2
    !! "newTargetEnvName" = Some "+ new env".
Proof.
  apply (sentinel_is_loaded_only_if_typed ex_world_new_sentinel ex_tools
           ex_state_open
           [ ListEnvProfiles "/work/app";
             Log LogDebug "[core] success to get questions for target environment."
               NoArg;
             Log LogDebug "[core] success to get questions for target environment"
               NoArg;
             Traverse ex_tree;
             Log LogInfo
               "[core] success to run question model for target environment, answers:"
               (JsonStringify
                  (<["newTargetEnvName" := "+ new env"]>
                     (<["targetEnvName" := "+ new env"]> ex_inputs)));
             LoadEnvProfile (Some "/work/app") "+ new env"
               (Some {| crypto_key := projectId ex_settings |}) ]
           (Some "/work/app") (Some {| crypto_key := projectId ex_settings |})).
  - vm_compute. reflexivity.
  - do 5 apply list_elem_of_further. apply list_elem_of_here.
Defined.

Lemma askTargetEnvironment_listing_failed w s p e :
  inputs s !! "projectPath" = Some p →
  p ≠ "" →
  listEnvProfiles (environmentManager w) p = err e →
  result (ctx (askTargetEnvironment w s).2) = Some e ∧
  inputs (askTargetEnvironment w s).2 = inputs s ∧
  questions (askTargetEnvironment w s).2 = questions s ∧
  trace (askTargetEnvironment w s).2 =
    (trace s ++
       [ ListEnvProfiles p;
         Log LogError "[core] failed to get questions for target environment: "
           (ErrorMessage e) ])%list.
Proof.
  intros Hp Hne He. apply String.eqb_neq in Hne.
  unfold askTargetEnvironment, _getQuestionsForProvision. run.
  rewrite Hp. cbn [truthy]. rewrite Hne. cbn [negb]. rewrite He. cbn.
  by rewrite <- app_assoc.
Qed.

(** X8 (a failed listing): when the project path is set and
    [listEnvProfiles] fails with [e], [askTargetEnvironment] logs one error
    line and stores [err(e)] in [ctx.result]; it does not start a
    traversal and leaves the inputs and the shared question objects as
    they were. *)
Theorem listing_failure_is_recorded w s p e :
  inputs s !! "projectPath" = Some p →
  p ≠ "" →
  listEnvProfiles (environmentManager w) p = err e →
  result (ctx (askTargetEnvironment w s).2) = Some e ∧
  inputs (askTargetEnvironment w s).2 = inputs s ∧
  questions (askTargetEnvironment w s).2 = questions s ∧
  trace (askTargetEnvironment w s).2 =
    (trace s ++
       [ ListEnvProfiles p;
         Log LogError "[core] failed to get questions for target environment: "
           (ErrorMessage e) ])%list.
Proof. apply askTargetEnvironment_listing_failed. Qed.

Lemma listing_failure_is_recorded_witness :
  result (ctx (askTargetEnvironment ex_world_unlisted ex_state_open).2)
    = Some ListFailed ∧
  inputs (askTargetEnvironment ex_world_unlisted ex_state_open).2
    = inputs ex_state_open ∧
  questions (askTargetEnvironment ex_world_unlisted ex_state_open).2
    = questions ex_state_open ∧
  trace (askTargetEnvironment ex_world_unlisted ex_state_open).2 =
    (trace ex_state_open ++
       [ ListEnvProfiles "/work/app";
         Log LogError "[core] failed to get questions for target environment: "
           (ErrorMessage ListFailed) ])%list.
Proof.
  apply (listing_failure_is_recorded ex_world_unlisted ex_state_open "/work/app"
           ListFailed).
  - reflexivity.
  - discriminate.
  - reflexivity.
Defined.

(** X9 (a failed listing does not stop the resolution): past the guard,
    when [listEnvProfiles] fails with [e] and the name read from the
    inputs is not the sentinel, [loadSolutionContext] still loads the
    profile of that name (the default one when [inputs.targetEnvName] is
    absent); [err(e)] stays in [ctx.result]. *)
Theorem listing_failure_does_not_stop w tools s ps p e :
  inputs s !! "projectPath" = Some p →
  p ≠ "" →
  projectSettings (ctx s) = Some ps →
  listEnvProfiles (environmentManager w) p = err e →
  candidate_name w (inputs s) ≠ "+ new env" →
  result (ctx (loadSolutionContext w tools s).2) = Some e ∧
  ∃ c,
    trace (loadSolutionContext w tools s).2 =
      (trace s ++
         [ ListEnvProfiles p;
           Log LogError "[core] failed to get questions for target environment: "
             (ErrorMessage e);
           LoadEnvProfile (Some p) (candidate_name w (inputs s)) c ])%list.
Proof.
  intros Hp Hne Hs He Hc.
  assert (truthy (inputs s !! "projectPath") = true) as Ht.
  { rewrite Hp. cbn. apply String.eqb_neq in Hne. by rewrite Hne. }
  destruct (askTargetEnvironment_listing_failed w s p e Hp Hne He)
    as (Hr & Hi & _ & Htr).
  rewrite (loadSolutionContext_guarded w tools s ps Ht Hs). cbv zeta.
  unfold final_name. rewrite Hi. apply String.eqb_neq in Hc. rewrite Hc.
  cbn [snd emit ctx trace]. split; [exact Hr|].
  eexists. rewrite Htr, Hp, <- app_assoc. reflexivity.
Qed.

Lemma listing_failure_does_not_stop_witness :
  result (ctx (loadSolutionContext ex_world_unlisted ex_tools ex_state_open).2)
    = Some ListFailed ∧
  ∃ c,
    trace (loadSolutionContext ex_world_unlisted ex_tools ex_state_open).2 =
      (trace ex_state_open ++
         [ ListEnvProfiles "/work/app";
           Log LogError "[core] failed to get questions for target environment: "
             (ErrorMessage ListFailed);
           LoadEnvProfile (Some "/work/app")
             (candidate_name ex_world_unlisted (inputs ex_state_open)) c ])%list.
Proof.
  apply (listing_failure_does_not_stop ex_world_unlisted ex_tools ex_state_open
           ex_settings "/work/app" ListFailed).
  - reflexivity.
  - discriminate.
  - reflexivity.
  - reflexivity.
  - vm_compute. discriminate.
Defined.

(** X10 (the asking keeps what the traversal left): when the question tree
    was built and the traversal answers the inputs [i'] with the result
    [res], the inputs after [askTargetEnvironment] are [i'], also when
    [res] is a failure; [ctx.result] becomes [err(e)] on a failure [e] and
    is left alone on success; the trace gains the two debug lines, the
    traversal, and one closing line for the outcome. *)
Theorem asking_keeps_the_answers w s root s1 i' res :
  _getQuestionsForProvision w s = (ok (Some root), s1) →
  traverse w (questions s1) root (inputs s1) = (i', res) →
  inputs (askTargetEnvironment w s).2 = i' ∧
  questions (askTargetEnvironment w s).2 = questions s1 ∧
  result (ctx (askTargetEnvironment w s).2)
    = match res with ok _ => result (ctx s) | err e => Some e end ∧
  trace (askTargetEnvironment w s).2 =
    (trace s1 ++
       [ Log LogDebug "[core] success to get questions for target environment."
           NoArg;
         Log LogDebug "[core] success to get questions for target environment"
           NoArg;
         Traverse root;
         match res with
         | ok _ =>
             Log LogInfo
               "[core] success to run question model for target environment, answers:"
               (JsonStringify (desensitize w (questions s1) root i'))
         | err _ =>
             Log LogDebug
               "[core] failed to run question model for target environment" NoArg
         end ])%list.
Proof.
  intros Hq Htr.
  destruct (getQuestions_frame w s) as (_ & Hc & _). rewrite Hq in Hc. cbn in Hc.
  unfold askTargetEnvironment. cbv beta iota zeta delta [bind]. rewrite Hq.
  run. cbn. rewrite Htr. destruct res as [[]|e]; cbn; rewrite ?Hc;
    by rewrite <- !app_assoc.
Qed.

Lemma asking_keeps_the_answers_witness :
  inputs (askTargetEnvironment ex_world_new_unnamed ex_state_open).2
    = <["newTargetEnvName" := ""]> (<["targetEnvName" := "+ new env"]> ex_inputs) ∧
  questions (askTargetEnvironment ex_world_new_unnamed ex_state_open).2
    = questions (_getQuestionsForProvision ex_world_new_unnamed ex_state_open).2 ∧
  result (ctx (askTargetEnvironment ex_world_new_unnamed ex_state_open).2)
    = match ok tt with ok _ => result (ctx ex_state_open) | err e => Some e end ∧
  trace (askTargetEnvironment ex_world_new_unnamed ex_state_open).2 =
    (trace (_getQuestionsForProvision ex_world_new_unnamed ex_state_open).2 ++
       [ Log LogDebug "[core] success to get questions for target environment."
           NoArg;
         Log LogDebug "[core] success to get questions for target environment"
           NoArg;
         Traverse ex_tree;
         match ok tt with
         | ok _ =>
             Log LogInfo
               "[core] success to run question model for target environment, answers:"
               (JsonStringify
                  (desensitize ex_world_new_unnamed
                     (questions (_getQuestionsForProvision ex_world_new_unnamed
                                   ex_state_open).2)
                     ex_tree
                     (<["newTargetEnvName" := ""]>
                        (<["targetEnvName" := "+ new env"]> ex_inputs))))
         | err _ =>
             Log LogDebug
               "[core] failed to run question model for target environment" NoArg
         end ])%list.
Proof.
  apply (asking_keeps_the_answers ex_world_new_unnamed ex_state_open ex_tree
           (_getQuestionsForProvision ex_world_new_unnamed ex_state_open).2
           (<["newTargetEnvName" := ""]> (<["targetEnvName" := "+ new env"]> ex_inputs))
           (ok tt)).
  - vm_compute. reflexivity.
  - vm_compute. reflexivity.
Defined.

(** A cancelled child prompt: the root answer stays in the inputs. *)
Example cancelled_child_prompt_keeps_the_root_answer :
  inputs (askTargetEnvironment
            (ex_world ex_manager (ui_script {[ "targetEnvName" := "+ new env" ]}))
            ex_state_open).2
    = <["targetEnvName" := "+ new env"]> ex_inputs ∧
  result (ctx (askTargetEnvironment
                 (ex_world ex_manager (ui_script {[ "targetEnvName" := "+ new env" ]}))
                 ex_state_open).2)
    = Some UserCancel.
Proof. split; vm_compute; reflexivity. Qed.

(** The registry calls of the asking: the listing, once, when the project
    path is set. *)
Lemma askTargetEnvironment_registry w s p :
  inputs s !! "projectPath" = Some p →
  p ≠ "" →
  ∃ evs, trace (askTargetEnvironment w s).2 = (trace s ++ evs)%list ∧
         registry_calls evs = [ListEnvProfiles p].
Proof.
  intros Hp Hne. apply String.eqb_neq in Hne.
  unfold askTargetEnvironment, _getQuestionsForProvision. run.
  rewrite Hp. cbn [truthy]. rewrite Hne. cbn [negb].
  destruct (listEnvProfiles (environmentManager w) p); cbn.
  2: { rewrite <- !app_assoc. eexists; split; [reflexivity|reflexivity]. }
  destruct (traverse w _ _ _) as [i' [[]|e]]; cbn;
    rewrite <- !app_assoc; eexists; (split; [reflexivity|reflexivity]).
Qed.

(** X11 (order of the registry calls): the registry calls of a resolution
    are none at all, or one listing of [inputs.projectPath], or that
    listing followed by one load; a load is never made without the
    listing before it, and nothing is listed or loaded twice. *)
Theorem registry_call_order w tools s :
  ∃ evs,
    trace (loadSolutionContext w tools s).2 = (trace s ++ evs)%list ∧
    (registry_calls evs = [] ∨
     ∃ p, inputs s !! "projectPath" = Some p ∧
          (registry_calls evs = [ListEnvProfiles p] ∨
           ∃ p' n c,
             registry_calls evs = [ListEnvProfiles p; LoadEnvProfile p' n c])).
Proof.
  destruct (truthy (inputs s !! "projectPath")) eqn:Hp.
  2: { rewrite (loadSolutionContext_rejected w tools s (or_introl Hp)).
       exists []. rewrite app_nil_r. by split; [|left]. }
  destruct (projectSettings (ctx s)) as [ps|] eqn:Hs.
  2: { rewrite (loadSolutionContext_rejected w tools s (or_intror Hs)).
       exists []. rewrite app_nil_r. by split; [|left]. }
  rewrite (loadSolutionContext_guarded w tools s ps Hp Hs). cbv zeta.
  destruct (inputs s !! "projectPath") as [p|] eqn:Hpath; [|discriminate].
  assert (p ≠ "") as Hne.
  { cbn in Hp. intros ->. discriminate. }
  destruct (askTargetEnvironment_registry w s p Hpath Hne) as (evs & Ht & Hr).
  destruct (final_name w _) as [n|]; cbn [snd emit trace].
  - eexists (evs ++ [_])%list. rewrite Ht, <- app_assoc.
    split; [reflexivity|]. right. exists p. split; [done|]. right.
    eexists _, _, _. rewrite registry_calls_app, Hr. reflexivity.
  - exists evs. split; [exact Ht|]. right. exists p. split; [done|]. by left.
Qed.

(** X12 (what a resolution leaves alone in the context): of the hook
    context, [loadSolutionContext] writes [ctx.result] at most; it never
    writes [ctx.solutionContext], the project settings, the
    identity-missing flag or the tools. *)
Theorem resolution_frame w tools0 s :
  tools (ctx (loadSolutionContext w tools0 s).2) = tools (ctx s) ∧
  projectSettings (ctx (loadSolutionContext w tools0 s).2)
    = projectSettings (ctx s) ∧
  projectIdMissing (ctx (loadSolutionContext w tools0 s).2)
    = projectIdMissing (ctx s) ∧
  solutionContext (ctx (loadSolutionContext w tools0 s).2)
    = solutionContext (ctx s).
Proof.
  destruct (truthy (inputs s !! "projectPath")) eqn:Hp.
  2: by rewrite (loadSolutionContext_rejected w tools0 s (or_introl Hp)).
  destruct (projectSettings (ctx s)) as [ps|] eqn:Hs.
  2: { rewrite (loadSolutionContext_rejected w tools0 s (or_intror Hs)).
       cbn. by rewrite Hs. }
  rewrite (loadSolutionContext_guarded w tools0 s ps Hp Hs). cbv zeta.
  destruct (askTargetEnvironment_frame w s) as (H1 & H2 & H3 & H4 & _).
  rewrite Hs in H2.
  by destruct (final_name w _).
Qed.

(** X13 (the two sources of a failure): when [loadSolutionContext]
    answers [err(e)], either no profile was loaded and [e] is
    [NoProjectOpenedError()], or one load was made and [e] is the error
    that this load answered.  The errors of the listing and of the
    traversal are never what the resolution answers. *)
Theorem resolution_error_sources w tools s e :
  (loadSolutionContext w tools s).1 = err e →
  ∃ evs,
    trace (loadSolutionContext w tools s).2 = (trace s ++ evs)%list ∧
    ((e = NoProjectOpenedError ∧ load_calls evs = []) ∨
     ∃ p n c, load_calls evs = [LoadEnvProfile p n c] ∧
              loadEnvProfile (environmentManager w) p n c = err e).
Proof.
  intros He.
  destruct (truthy (inputs s !! "projectPath")) eqn:Hp.
  2: { rewrite (loadSolutionContext_rejected w tools s (or_introl Hp)) in *.
       exists []. rewrite app_nil_r. split; [done|]. left.
       split; [|done]. cbn in He. congruence. }
  destruct (projectSettings (ctx s)) as [ps|] eqn:Hs.
  2: { rewrite (loadSolutionContext_rejected w tools s (or_intror Hs)) in *.
       exists []. rewrite app_nil_r. split; [done|]. left.
       split; [|done]. cbn in He. congruence. }
  rewrite (loadSolutionContext_guarded w tools s ps Hp Hs) in *. cbv zeta in *.
  destruct (askTargetEnvironment_frame w s) as (_ & _ & _ & _ & _ & evs & Ht & Hl).
  destruct (final_name w _) as [n|]; cbn [fst snd emit trace] in *.
  - eexists (evs ++ [_])%list. rewrite Ht, <- app_assoc.
    split; [reflexivity|]. right. eexists _, _, _.
    rewrite load_calls_app, Hl. split; [reflexivity|].
    destruct (loadEnvProfile _ _ _ _); [discriminate|congruence].
  - exists evs. split; [exact Ht|]. left. split; [congruence|exact Hl].
Qed.

Lemma resolution_error_sources_witness :
  ∃ evs,
    trace (loadSolutionContext ex_world_missing ex_tools ex_state_open).2
      = (trace ex_state_open ++ evs)%list ∧
    ((ProfileNotFound = NoProjectOpenedError ∧ load_calls evs = []) ∨
     ∃ p n c, load_calls evs = [LoadEnvProfile p n c] ∧
              loadEnvProfile (environmentManager ex_world_missing) p n c
                = err ProfileNotFound).
Proof.
  apply (resolution_error_sources ex_world_missing ex_tools ex_state_open
           ProfileNotFound).
  vm_compute. reflexivity.
Defined.

(** X14 (a failed traversal does not stop the resolution): past the guard,
    when the traversal fails with [e] and the name read from the inputs it
    left is not the sentinel, [loadSolutionContext] still makes the
    registry load for that name; [err(e)] is only kept in [ctx.result]. *)
Theorem traversal_failure_does_not_stop w tools s ps root s1 i' e :
  truthy (inputs s !! "projectPath") = true →
  projectSettings (ctx s) = Some ps →
  _getQuestionsForProvision w s = (ok (Some root), s1) →
  traverse w (questions s1) root (inputs s1) = (i', err e) →
  candidate_name w i' ≠ "+ new env" →
  result (ctx (loadSolutionContext w tools s).2) = Some e ∧
  ∃ c,
    trace (loadSolutionContext w tools s).2 =
      (trace (askTargetEnvironment w s).2
         ++ [LoadEnvProfile (i' !! "projectPath") (candidate_name w i') c])%list.
Proof.
  intros Hp Hs Hq Htr Hc.
  rewrite (loadSolutionContext_guarded w tools s ps Hp Hs). cbv zeta.
  assert (inputs (askTargetEnvironment w s).2 = i' ∧
          result (ctx (askTargetEnvironment w s).2) = Some e) as [Hi Hr].
  { unfold askTargetEnvironment. cbv beta iota zeta delta [bind]. rewrite Hq.
    run. cbn. by rewrite Htr. }
  unfold final_name. rewrite Hi. apply String.eqb_neq in Hc. rewrite Hc.
  cbn [snd emit ctx trace]. split; [exact Hr|]. by eexists.
Qed.

Lemma traversal_failure_does_not_stop_witness :
  result (ctx (loadSolutionContext ex_world_cancel ex_tools ex_state_open).2)
    = Some UserCancel ∧
  ∃ c,
    trace (loadSolutionContext ex_world_cancel ex_tools ex_state_open).2 =
      (trace (askTargetEnvironment ex_world_cancel ex_state_open).2
         ++ [LoadEnvProfile (ex_inputs !! "projectPath")
               (candidate_name ex_world_cancel ex_inputs) c])%list.
Proof.
  apply (traversal_failure_does_not_stop ex_world_cancel ex_tools ex_state_open
           ex_settings ex_tree
           (_getQuestionsForProvision ex_world_cancel ex_state_open).2
           ex_inputs UserCancel).
  - reflexivity.
  - reflexivity.
  - vm_compute. reflexivity.
  - vm_compute. reflexivity.
  - vm_compute. discriminate.
Defined.

(** X15 (every field of a synthesized context): the object literal of
    [newSolutionContext] writes [projectSettings], [config] and [root],
    spreads the tools and their token provider over them, and writes
    [answers] and [cryptoProvider] last.  So [cryptoProvider] is always
    keyed by the identity minted in this call and [answers] are always the
    inputs; any other field is the tool property of that name when there
    is one, and otherwise the freshly written value, if any. *)
Theorem synthesis_fields w tools0 (i : Inputs) s (k : string) :
  (newSolutionContext w tools0 i s).1 !! k =
    if String.eqb k "cryptoProvider"
    then Some (VCrypto {| crypto_key := uuid_v4 w (uuid_calls s) |})
    else if String.eqb k "answers" then Some (VInputs i)
    else match tool_field tools0 k with
         | Some v => Some v
         | None => fresh_field (uuid_v4 w (uuid_calls s)) i k
         end.
Proof.
  unfold newSolutionContext, tool_field, fresh_field, spread. run.
  destruct (String.eqb_spec k "cryptoProvider") as [->|Hc].
  { by rewrite lookup_insert_eq. }
  rewrite lookup_insert_ne by done.
  destruct (String.eqb_spec k "answers") as [->|Ha].
  { by rewrite lookup_insert_eq. }
  rewrite lookup_insert_ne by done.
  rewrite !lookup_union.
  destruct (own_properties (tools0 !! "tokenProvider") !! k) as [v|];
    destruct (tools0 !! k) as [v'|]; cbn; try reflexivity.
  all: destruct (String.eqb_spec k "projectSettings") as [->|H1];
    [ by repeat (rewrite lookup_insert_ne by done); rewrite lookup_insert_eq |].
  all: destruct (String.eqb_spec k "config") as [->|H3];
    [ by repeat (rewrite lookup_insert_ne by done); rewrite lookup_insert_eq |].
  all: destruct (String.eqb_spec k "root") as [->|H4];
    [ by rewrite lookup_insert_eq |].
  all: by rewrite !lookup_insert_ne, lookup_empty by done.
Qed.

Lemma synthesis_fields_root w tools0 (i : Inputs) s :
  tool_field tools0 "root" = None →
  (newSolutionContext w tools0 i s).1 !! "root"
    = Some (VStr (or_else (i !! "projectPath") "")).
Proof.
  intros Hfree. rewrite newSolutionContext_lookup_free by done.
  by rewrite lookup_insert_eq.
Qed.

(** X16 (root of a synthesized context): with tools that carry no [root]
    property, the [root] of the context is [inputs.projectPath] when that
    is a non-empty string and the empty string when it is absent or
    empty. *)
Theorem synthesis_root w tools0 (i : Inputs) s :
  tool_field tools0 "root" = None →
  (newSolutionContext w tools0 i s).1 !! "root" =
    Some (VStr (match i !! "projectPath" with Some p => p | None => "" end)).
Proof.
  intros Hfree. rewrite synthesis_fields_root by exact Hfree.
  unfold or_else, truthy, nullish_or.
  destruct (i !! "projectPath") as [p|]; [|reflexivity].
  by destruct (String.eqb_spec p "") as [->|].
Qed.

Lemma synthesis_root_witness :
  (newSolutionContext ex_world_cancel ex_tools ∅ ex_state_closed).1 !! "root" =
    Some (VStr (match (∅ : Inputs) !! "projectPath" with
                | Some p => p
                | None => ""
                end)).
Proof.
  apply (synthesis_root ex_world_cancel ex_tools ∅ ex_state_closed).
  vm_compute. reflexivity.
Defined.

(** X17 (no target environment in a synthesized context): with tools that
    carry no [targetEnvName] property, the context of [newSolutionContext]
    has no [targetEnvName] field at all. *)
Theorem synthesis_has_no_target_env w tools0 (i : Inputs) s :
  tool_field tools0 "targetEnvName" = None →
  (newSolutionContext w tools0 i s).1 !! "targetEnvName" = None.
Proof.
  intros Hfree. rewrite newSolutionContext_lookup_free by done.
  by rewrite !lookup_insert_ne, lookup_empty by done.
Qed.

Lemma synthesis_has_no_target_env_witness :
  (newSolutionContext ex_world_cancel ex_tools ex_inputs ex_state_closed).1
    !! "targetEnvName" = None.
Proof.
  apply (synthesis_has_no_target_env ex_world_cancel ex_tools ex_inputs
           ex_state_closed).
  vm_compute. reflexivity.
Defined.

(** X18 (a failed listing leaves the questions alone): when the project
    path is set and [listEnvProfiles] fails with [e],
    [_getQuestionsForProvision] answers [err(e)], unchanged, and has not
    written the option list of the shared select question; only the
    listing call was added to the trace. *)
Theorem question_listing_failure w s p e :
  inputs s !! "projectPath" = Some p →
  p ≠ "" →
  listEnvProfiles (environmentManager w) p = err e →
  (_getQuestionsForProvision w s).1 = err e ∧
  questions (_getQuestionsForProvision w s).2 = questions s ∧
  inputs (_getQuestionsForProvision w s).2 = inputs s ∧
  ctx (_getQuestionsForProvision w s).2 = ctx s ∧
  trace (_getQuestionsForProvision w s).2 = (trace s ++ [ListEnvProfiles p])%list.
Proof.
  intros Hp Hne He. apply String.eqb_neq in Hne.
  unfold _getQuestionsForProvision. run.
  rewrite Hp. cbn [truthy]. rewrite Hne. cbn [negb]. by rewrite He.
Qed.

Lemma question_listing_failure_witness :
  (_getQuestionsForProvision ex_world_unlisted ex_state_open).1 = err ListFailed ∧
  questions (_getQuestionsForProvision ex_world_unlisted ex_state_open).2
    = questions ex_state_open ∧
  inputs (_getQuestionsForProvision ex_world_unlisted ex_state_open).2
    = inputs ex_state_open ∧
  ctx (_getQuestionsForProvision ex_world_unlisted ex_state_open).2
    = ctx ex_state_open ∧
  trace (_getQuestionsForProvision ex_world_unlisted ex_state_open).2
    = (trace ex_state_open ++ [ListEnvProfiles "/work/app"])%list.
Proof.
  apply (question_listing_failure ex_world_unlisted ex_state_open "/work/app"
           ListFailed).
  - reflexivity.
  - discriminate.
  - reflexivity.
Defined.

(** X19 (the option list is overwritten, not extended): building the tree
    twice, against a registry that lists [L1] the first time and [L2] the
    second, answers the same tree both times; the shared select question
    then carries ["+ new env"] followed by [L2] only, so the first tree,
    which points at that same object, shows the second listing.  The
    question names are never changed. *)
Theorem options_are_overwritten w1 w2 s p L1 L2 :
  inputs s !! "projectPath" = Some p →
  p ≠ "" →
  listEnvProfiles (environmentManager w1) p = ok L1 →
  listEnvProfiles (environmentManager w2) p = ok L2 →
  (_getQuestionsForProvision w2 (_getQuestionsForProvision w1 s).2).1
    = (_getQuestionsForProvision w1 s).1 ∧
  staticOptions
    (QuestionSelectTargetEnvironment
       (questions (_getQuestionsForProvision w2
                     (_getQuestionsForProvision w1 s).2).2))
    = "+ new env" :: L2 ∧
  q_name
    (QuestionSelectTargetEnvironment
       (questions (_getQuestionsForProvision w2
                     (_getQuestionsForProvision w1 s).2).2))
    = q_name (QuestionSelectTargetEnvironment (questions s)) ∧
  QuestionNewTargetEnvironmentName
    (questions (_getQuestionsForProvision w2 (_getQuestionsForProvision w1 s).2).2)
    = QuestionNewTargetEnvironmentName (questions s).
Proof.
  intros Hp Hne H1 H2. apply String.eqb_neq in Hne.
  unfold _getQuestionsForProvision. run.
  rewrite Hp. cbn [truthy]. rewrite Hne. cbn [negb]. rewrite H1. cbn.
  rewrite Hp. cbn [truthy]. rewrite Hne. cbn [negb]. rewrite H2. by cbn.
Qed.

Lemma options_are_overwritten_witness :
  (_getQuestionsForProvision ex_world_normalising
     (_getQuestionsForProvision ex_world_pick_prod ex_state_open).2).1
    = (_getQuestionsForProvision ex_world_pick_prod ex_state_open).1 ∧
  staticOptions
    (QuestionSelectTargetEnvironment
       (questions (_getQuestionsForProvision ex_world_normalising
                     (_getQuestionsForProvision ex_world_pick_prod
                        ex_state_open).2).2))
    = "+ new env" :: ["dev"] ∧
  q_name
    (QuestionSelectTargetEnvironment
       (questions (_getQuestionsForProvision ex_world_normalising
                     (_getQuestionsForProvision ex_world_pick_prod
                        ex_state_open).2).2))
    = q_name (QuestionSelectTargetEnvironment (questions ex_state_open)) ∧
  QuestionNewTargetEnvironmentName
    (questions (_getQuestionsForProvision ex_world_normalising
                  (_getQuestionsForProvision ex_world_pick_prod ex_state_open).2).2)
    = QuestionNewTargetEnvironmentName (questions ex_state_open).
Proof.
  apply (options_are_overwritten ex_world_pick_prod ex_world_normalising
           ex_state_open "/work/app" ["dev"; "prod"] ["dev"]).
  - reflexivity.
  - discriminate.
  - reflexivity.
  - reflexivity.
Defined.
